(** * AudioPine dashboard: the data pipeline of [dashboard.py]

    A shallow embedding of the load / clean / join pipeline
    ([load_data_from_gsheet]), of the sidebar filters and of the
    aggregations shown in the three tabs, with the properties the
    specification states about them.

    Conventions of the model.
    - A data frame is the list of its rows, in index order; a row is a
      record with one field per column the script reads.
    - A field of a sheet as [pd.read_csv] returns it is a [cell]:
      [None] is NaN (an empty field), [Some s] is the text of the field.
      The two parsers of pandas, [pd.to_numeric] and [pd.to_datetime], are
      the operations of the class [Parsers]; with [errors='coerce'] they
      give NaN / NaT, here [None], on text they do not accept.
    - [pd.read_csv] types each column from its fields ([holds_text]).
      The [.str] accessor raises on a column that holds no text; the
      identifier columns are modelled as columns of text: on a column of
      numbers [astype(str)] gives the text of the number (['101.0'] for
      a field [101] beside an empty one), which is not modelled, and the
      properties about identifiers are stated for columns of text.
    - Numbers are rationals ([Q]): float64 rounding is not modelled, and
      no property equates sums that are taken in different orders.
    - A timestamp is a number of nanoseconds since 1970-01-01T00:00
      (datetime64[ns]), a calendar date a number of days since then.
    - Text is a byte string; white space is Python's for code points
      below 128. *)

From Stdlib Require Import List String Ascii Bool Arith ZArith QArith Qround Lia.
From Stdlib Require Import Sorted Permutation.
From Stdlib Require OrderedTypeEx.
Import ListNotations.

Close Scope Q_scope.
Local Open Scope string_scope.
Local Open Scope list_scope.
Local Open Scope Z_scope.

Set Implicit Arguments.

(* ================================================================== *)
(** * Text *)

(** [str.isspace] on one character (code points below 128). *)
Definition isspace (c : ascii) : bool :=
  let n := nat_of_ascii c in
  ((9 <=? n)%nat && (n <=? 13)%nat) || ((28 <=? n)%nat && (n <=? 32)%nat).

Fixpoint lstrip (s : string) : string :=
  match s with
  | EmptyString => EmptyString
  | String c s' => if isspace c then lstrip s' else s
  end.

Fixpoint rstrip (s : string) : string :=
  match s with
  | EmptyString => EmptyString
  | String c s' =>
      match rstrip s' with
      | EmptyString => if isspace c then EmptyString else String c EmptyString
      | t => String c t
      end
  end.

(** [str.strip()] *)
Definition strip (s : string) : string := rstrip (lstrip s).

(** A string made of white space only (the empty string included). *)
Fixpoint blank (s : string) : bool :=
  match s with
  | EmptyString => true
  | String c s' => isspace c && blank s'
  end.

(* ================================================================== *)
(** * Cells and pandas' element-wise operations *)

(** A field as read from the CSV export: [None] is NaN. *)
Definition cell := option string.

(** [Series.fillna(v)] on one element. *)
Definition fillna {A : Type} (v : A) (x : option A) : A :=
  match x with
  | Some a => a
  | None => v
  end.

(** [Series.str.strip()] on one element of an object column: NaN stays NaN. *)
Definition str_strip (x : cell) : cell := option_map strip x.

(** The text parsers of pandas, per element. *)
Class Parsers := {
  (** [pd.to_numeric(_, errors='coerce')] on a text field: pandas'
      reading of a number, which [pd.read_csv] shares when it types a
      column *)
  parse_numeric : string -> option Q;
  (** [pd.to_datetime(_, errors='coerce')] on a text field of the date
      column, in the format pandas settles on for that column *)
  parse_datetime : string -> option Z
}.

(* ================================================================== *)
(** * The two sheets *)

(** The exceptions the script can end on.  [AttributeError] is the one
    the [.str] accessor raises on a column that holds no text. *)
Inductive Exception : Type :=
| ValueError (msg : string)
| KeyError (key : string)
| TypeError (msg : string)
| AttributeError.

(** The inventory sheet as [pd.read_csv] returns it. *)
Module InvSheet.
Record row : Type := {
  Item_ID : cell;
  Category : cell;
  Product_Name_Model : cell;
  Supplier_Price : cell;
  Selling_Price : cell;
  Balance_Stock : cell
}.
Record t : Type := { columns : list string; rows : list row }.
End InvSheet.

(** The sales sheet as [pd.read_csv] returns it.  [Total_Sale],
    [Revenue] and [Customer_Name] are read by the script but are not
    among the columns it validates; a field of a column that [columns]
    does not list is never read.

    Headers covered.  A header is any list of names; the fields of a row
    are those of the columns the script can read from its own sheet.  An
    inventory sheet that has itself a column named ['Total Sale'],
    ['Revenue'] or ['Customer Name'], and a sales sheet that has, beside
    the columns line 51 renames, one already named ['Item ID'],
    ['Quantity Sold'] or ['Sale Date'], are outside the model. *)
Module SalesSheet.
Record row : Type := {
  Item_ID_Product : cell;
  Qty_Sold : cell;
  Date : cell;
  Profit : cell;
  Payment_Method : cell;
  Installer_Referral : cell;
  Total_Sale : cell;
  Revenue : cell;
  Customer_Name : cell
}.
Record t : Type := { columns : list string; rows : list row }.
End SalesSheet.

Definition REQUIRED_INVENTORY_COLS : list string :=
  ["Item ID"; "Category"; "Product Name / Model"; "Supplier Price (Ksh)";
   "Selling Price (Ksh)"; "Balance Stock"].

Definition REQUIRED_SALES_COLS : list string :=
  ["Item ID / Product"; "Qty Sold"; "Date"; "Profit"; "Payment Method";
   "Installer/Referral"].

(** [col in df.columns] *)
Definition has_column (col : string) (columns : list string) : bool :=
  existsb (String.eqb col) columns.

(* ================================================================== *)
(** * Normalized tables *)

(** A row of [df_inventory] after lines 55-62. *)
Module Inv.
Record row : Type := {
  Item_ID : string;
  Category : cell;
  Product_Name_Model : cell;
  Supplier_Price : Q;
  Selling_Price : Q;
  Balance_Stock : Q
}.
End Inv.

(** A row of [df_sales] after lines 51-63. *)
Module Sales.
Record row : Type := {
  Item_ID : string;
  Quantity_Sold : Q;
  Sale_Date : Z;
  Profit : Q;
  Payment_Method : cell;
  Installer_Referral : cell;
  Total_Sale : cell;
  Customer_Name : cell
}.
End Sales.

(** A row of [df_merged] as [load_data_from_gsheet] returns it.  The
    inventory columns are NaN ([None]) on a sale whose identifier matches
    no inventory row. *)
Module Merged.
Record row : Type := {
  Item_ID : string;
  Quantity_Sold : Q;
  Sale_Date : Z;
  Profit : Q;
  Payment_Method : cell;
  Installer_Referral : cell;
  Customer_Name : cell;
  Revenue : Q;
  Category : string;
  Product_Name_Model : cell;
  Supplier_Price : option Q;
  Selling_Price : option Q;
  Balance_Stock : option Q
}.
End Merged.

(* ================================================================== *)
(** * Left join *)

(** The rows of the right frame whose key equals [k], in frame order. *)
Definition matching {R : Type} (rkey : R -> string) (k : string) (right : list R)
  : list R :=
  filter (fun r => String.eqb (rkey r) k) right.

(** [pd.merge(left, right, on=key, how="left")]: the rows of the left
    frame in order, each once per right row with its key, or once with
    no right row when there is none. *)
Definition merge {L R : Type} (lkey : L -> string) (rkey : R -> string)
  (left : list L) (right : list R) : list (L * option R) :=
  flat_map
    (fun l =>
       match matching rkey (lkey l) right with
       | [] => [(l, None)]
       | ms => map (fun r => (l, Some r)) ms
       end)
    left.

Section Pipeline.

Context {P : Parsers}.

(** [pd.to_numeric(col, errors='coerce')], element-wise: NaN stays NaN. *)
Definition to_numeric (x : cell) : option Q :=
  match x with
  | Some s => parse_numeric s
  | None => None
  end.

(** [pd.to_datetime(col, errors='coerce')], element-wise: NaN gives NaT. *)
Definition to_datetime (x : cell) : option Z :=
  match x with
  | Some s => parse_datetime s
  | None => None
  end.

(** Lines 52-54, 59 and 63 on one sales row: the coercions, then
    [dropna(subset=['Sale Date', 'Item ID'])] ([None]: the row is
    dropped), then [astype(str).str.strip()] on the identifier, which
    is text. *)
Definition normalize_sale (r : SalesSheet.row) : option Sales.row :=
  let Sale_Date := to_datetime (SalesSheet.Date r) in
  let Profit := fillna (0%Q) (to_numeric (SalesSheet.Profit r)) in
  let Quantity_Sold := fillna (0%Q) (to_numeric (SalesSheet.Qty_Sold r)) in
  match Sale_Date, SalesSheet.Item_ID_Product r with
  | Some d, Some id =>
      Some {| Sales.Item_ID := strip id;
              Sales.Quantity_Sold := Quantity_Sold;
              Sales.Sale_Date := d;
              Sales.Profit := Profit;
              Sales.Payment_Method := SalesSheet.Payment_Method r;
              Sales.Installer_Referral := SalesSheet.Installer_Referral r;
              Sales.Total_Sale := SalesSheet.Total_Sale r;
              Sales.Customer_Name := SalesSheet.Customer_Name r |}
  | _, _ => None
  end.

(** Lines 55-57, 60 and 62 on one inventory row, whose identifier is
    text. *)
Definition normalize_inventory (r : InvSheet.row) : option Inv.row :=
  let Supplier_Price := fillna (0%Q) (to_numeric (InvSheet.Supplier_Price r)) in
  let Selling_Price := fillna (0%Q) (to_numeric (InvSheet.Selling_Price r)) in
  let Balance_Stock := fillna (0%Q) (to_numeric (InvSheet.Balance_Stock r)) in
  match InvSheet.Item_ID r with
  | Some id =>
      Some {| Inv.Item_ID := strip id;
              Inv.Category := InvSheet.Category r;
              Inv.Product_Name_Model := InvSheet.Product_Name_Model r;
              Inv.Supplier_Price := Supplier_Price;
              Inv.Selling_Price := Selling_Price;
              Inv.Balance_Stock := Balance_Stock |}
  | None => None
  end.

(** Rows kept by a row-wise step that may drop the row. *)
Fixpoint keep {A B : Type} (f : A -> option B) (l : list A) : list B :=
  match l with
  | [] => []
  | a :: l' =>
      match f a with
      | Some b => b :: keep f l'
      | None => keep f l'
      end
  end.

(** Lines 66-71 on one joined row of a frame on which they do not
    raise (see [load_data_from_gsheet]): the column named ['Revenue'] is
    coerced to a number with 0 for NaN; [Category] is filled with
    ['Unknown'] and trimmed; the two other text columns are trimmed. *)
Definition finish (j : Sales.row * option Inv.row) : Merged.row :=
  let (s, oi) := j in
  {| Merged.Item_ID := Sales.Item_ID s;
     Merged.Quantity_Sold := Sales.Quantity_Sold s;
     Merged.Sale_Date := Sales.Sale_Date s;
     Merged.Profit := Sales.Profit s;
     Merged.Payment_Method := str_strip (Sales.Payment_Method s);
     Merged.Installer_Referral := str_strip (Sales.Installer_Referral s);
     Merged.Customer_Name := Sales.Customer_Name s;
     Merged.Revenue := fillna (0%Q) (to_numeric (Sales.Total_Sale s));
     Merged.Category :=
       strip (fillna "Unknown" (match oi with
                                | Some i => Inv.Category i
                                | None => None
                                end));
     Merged.Product_Name_Model :=
       match oi with Some i => Inv.Product_Name_Model i | None => None end;
     Merged.Supplier_Price := option_map Inv.Supplier_Price oi;
     Merged.Selling_Price := option_map Inv.Selling_Price oi;
     Merged.Balance_Stock := option_map Inv.Balance_Stock oi |}.

(** A field that reads as a number, or is empty. *)
Definition number_or_nan (x : cell) : bool :=
  match x with
  | Some s => match parse_numeric s with Some _ => true | None => false end
  | None => true
  end.

(** A field that reads as a truth value, or is empty. *)
Definition boolean_or_nan (x : cell) : bool :=
  match x with
  | Some s => existsb (String.eqb s) ["True"; "TRUE"; "true"; "False"; "FALSE"; "false"]
  | None => true
  end.

(** The column type [pd.read_csv] infers.  A column whose fields all
    read as numbers (an empty field counts) gets a numeric dtype, also
    when all its fields are empty; one whose fields are all truth values
    holds booleans; any other column, and every column of a sheet
    without rows, has dtype object and holds its fields as text. *)
Definition holds_text (column : list cell) : bool :=
  match column with
  | [] => true
  | _ :: _ => negb (forallb number_or_nan column)
              && negb (forallb boolean_or_nan column)
  end.

(** Line 51: the name of a sales column after the renaming. *)
Definition renamed (col : string) : string :=
  if String.eqb col "Item ID / Product" then "Item ID"
  else if String.eqb col "Qty Sold" then "Quantity Sold"
  else if String.eqb col "Date" then "Sale Date"
  else col.

(** [pd.merge] gives a column that both frames have, the key apart, the
    suffixes [_x] and [_y]: the merged frame has no column of that name
    any more. *)
Definition shared (col : string) (inventory : InvSheet.t) (sales : SalesSheet.t)
  : bool :=
  has_column col (InvSheet.columns inventory)
  && has_column col (map renamed (SalesSheet.columns sales)).

(** A column of the sales sheet that reaches the merged frame under its
    own name. *)
Definition from_sales (col : string) (inventory : InvSheet.t) (sales : SalesSheet.t)
  : bool :=
  has_column col (SalesSheet.columns sales) && negb (shared col inventory sales).

(** A sales row with, in [Total_Sale], its field of the column
    ['Revenue']. *)
Definition revenue_row (r : SalesSheet.row) : SalesSheet.row :=
  {| SalesSheet.Item_ID_Product := SalesSheet.Item_ID_Product r;
     SalesSheet.Qty_Sold := SalesSheet.Qty_Sold r;
     SalesSheet.Date := SalesSheet.Date r;
     SalesSheet.Profit := SalesSheet.Profit r;
     SalesSheet.Payment_Method := SalesSheet.Payment_Method r;
     SalesSheet.Installer_Referral := SalesSheet.Installer_Referral r;
     SalesSheet.Total_Sale := SalesSheet.Revenue r;
     SalesSheet.Revenue := SalesSheet.Revenue r;
     SalesSheet.Customer_Name := SalesSheet.Customer_Name r |}.

(** The sales rows with, in [Total_Sale], the field of the column that
    line 66 leaves under the name ['Revenue']: the column ['Total Sale']
    renamed, or else a column that is named ['Revenue'] already. *)
Definition revenue_rows (inventory : InvSheet.t) (sales : SalesSheet.t)
  : list SalesSheet.row :=
  if from_sales "Total Sale" inventory sales then SalesSheet.rows sales
  else map revenue_row (SalesSheet.rows sales).

(** Lines 66-67: what [df_merged['Revenue']] raises, if it does.  Two
    columns named ['Revenue'] make it a frame, which [pd.to_numeric]
    refuses; with none the lookup fails. *)
Definition revenue_error (inventory : InvSheet.t) (sales : SalesSheet.t)
  : option Exception :=
  match from_sales "Total Sale" inventory sales,
        from_sales "Revenue" inventory sales with
  | true, true => Some (TypeError "arg must be a list, tuple, 1-d array, or Series")
  | false, false => Some (KeyError "Revenue")
  | _, _ => None
  end.

(** Line 69: what [df_merged['Category'].fillna('Unknown').str.strip()]
    raises, if it does; [category] is the column of the merged frame.
    A column of the inventory sheet that holds no text gets some through
    [fillna] when a row of the merged frame has no category, and raises
    otherwise.  (The numbers such a column holds in its other rows are
    turned into NaN by [.str.strip()]; [finish] keeps the text of their
    fields instead.) *)
Definition category_error (inventory : InvSheet.t) (sales : SalesSheet.t)
  (category : list cell) : option Exception :=
  if shared "Category" inventory sales then Some (KeyError "Category")
  else if holds_text (map InvSheet.Category (InvSheet.rows inventory)) then None
  else
    match category with
    | [] => Some AttributeError
    | _ :: _ =>
        if forallb (fun x => match x with Some _ => true | None => false end)
             category
        then Some AttributeError
        else None
    end.

(** Lines 70 and 71: what [df_merged[col].str.strip()] raises, if it
    does, on a column that comes from the sales sheet. *)
Definition text_error (col : string) (column : list cell)
  (inventory : InvSheet.t) (sales : SalesSheet.t) : option Exception :=
  if shared col inventory sales then Some (KeyError col)
  else if holds_text column then None
  else Some AttributeError.

(** [load_data_from_gsheet], from the two frames [pd.read_csv] returned. *)
Definition load_data_from_gsheet (inventory : InvSheet.t) (sales : SalesSheet.t)
  : Exception + (list Inv.row * list Merged.row) :=
  if negb (forallb (fun col => has_column col (InvSheet.columns inventory))
             REQUIRED_INVENTORY_COLS)
  then inl (ValueError "Inventory sheet is missing required columns.")
  else if negb (forallb (fun col => has_column col (SalesSheet.columns sales))
                  REQUIRED_SALES_COLS)
  then inl (ValueError "Sales sheet is missing required columns.")
  else
    let df_sales := keep normalize_sale (revenue_rows inventory sales) in
    let df_inventory := keep normalize_inventory (InvSheet.rows inventory) in
    let df_merged := merge Sales.Item_ID Inv.Item_ID df_sales df_inventory in
    match revenue_error inventory sales with
    | Some e => inl e
    | None =>
    match category_error inventory sales
            (map (fun j => match snd j with
                           | Some i => Inv.Category i
                           | None => None
                           end) df_merged) with
    | Some e => inl e
    | None =>
    match text_error "Payment Method"
            (map SalesSheet.Payment_Method (SalesSheet.rows sales))
            inventory sales with
    | Some e => inl e
    | None =>
    match text_error "Installer/Referral"
            (map SalesSheet.Installer_Referral (SalesSheet.rows sales))
            inventory sales with
    | Some e => inl e
    | None => inr (df_inventory, map finish df_merged)
    end end end end.

End Pipeline.


(* ================================================================== *)
(** * Dates *)

Definition DAY : Z := 86400000000000.
Definition WEEK : Z := 7 * DAY.

(** [Timestamp.date()] / [Series.dt.date]: the calendar day. *)
Definition date (t : Z) : Z := t / DAY.

(** [Timestamp.normalize()]: midnight of the same day. *)
Definition normalize (t : Z) : Z := date t * DAY.

(** [Timestamp.weekday()]: Monday is 0 (1970-01-01 was a Thursday). *)
Definition weekday (t : Z) : Z := (date t + 3) mod 7.

(** [Series.max()] / [Series.min()] on timestamps: NaT ([None]) on an
    empty column. *)
Definition max_date (l : list Z) : option Z :=
  match l with
  | [] => None
  | t :: l' => Some (fold_left Z.max l' t)
  end.

Definition min_date (l : list Z) : option Z :=
  match l with
  | [] => None
  | t :: l' => Some (fold_left Z.min l' t)
  end.

(* ================================================================== *)
(** * Sidebar filters (lines 89-97) *)

(** Equality of two cells as [isin] sees it: NaN matches NaN. *)
Definition cell_eqb (a b : cell) : bool :=
  match a, b with
  | Some x, Some y => String.eqb x y
  | None, None => true
  | _, _ => false
  end.

(** [Series.isin(values)] on one element. *)
Definition isin {A : Type} (eqb : A -> A -> bool) (x : A) (values : list A) : bool :=
  existsb (eqb x) values.

Definition df_date_filtered (df_sales_merged : list Merged.row)
  (start_date end_date : Z) : list Merged.row :=
  filter (fun r => (start_date <=? date (Merged.Sale_Date r))
                   && (date (Merged.Sale_Date r) <=? end_date))
    df_sales_merged.

Definition df_cat_filtered (df_sales_merged : list Merged.row)
  (start_date end_date : Z) (category : list string) : list Merged.row :=
  filter (fun r => isin String.eqb (Merged.Category r) category)
    (df_date_filtered df_sales_merged start_date end_date).

Definition df_filtered (df_sales_merged : list Merged.row)
  (start_date end_date : Z) (category : list string) (product_name : list cell)
  : list Merged.row :=
  filter (fun r => isin cell_eqb (Merged.Product_Name_Model r) product_name)
    (df_cat_filtered df_sales_merged start_date end_date category).

(* ================================================================== *)
(** * Key metrics (lines 110-113) and stock value (lines 153-154) *)

(** [Series.sum()] *)
Definition sum (l : list Q) : Q := fold_left Qplus l (0%Q).

(** Python's [int(x)] on a number: the fractional part is dropped. *)
Definition int (x : Q) : Z := Z.quot (Qnum x) (Zpos (Qden x)).

Definition total_revenue (df_filtered : list Merged.row) : Z :=
  int (sum (map Merged.Revenue df_filtered)).

Definition total_profit (df_filtered : list Merged.row) : Z :=
  int (sum (map Merged.Profit df_filtered)).

Definition total_items_sold (df_filtered : list Merged.row) : Z :=
  int (sum (map Merged.Quantity_Sold df_filtered)).

(** Python's [a / b] on two integers; [None] is ZeroDivisionError. *)
Definition truediv (a b : Z) : option Q :=
  if b =? 0 then None else Some (inject_Z a / inject_Z b)%Q.

(** Line 113, from the two integers of lines 110 and 111; [None] would
    be the division faulting. *)
Definition profit_margin (total_profit total_revenue : Z) : option Q :=
  if total_revenue >? 0
  then option_map (fun q => (q * inject_Z 100)%Q)
         (truediv total_profit total_revenue)
  else Some 0%Q.

Definition avg_profit_margin (df_filtered : list Merged.row) : option Q :=
  profit_margin (total_profit df_filtered) (total_revenue df_filtered).

Definition total_stock_value_cost (df_inventory : list Inv.row) : Z :=
  int (sum (map (fun i => (Inv.Balance_Stock i * Inv.Supplier_Price i)%Q)
              df_inventory)).

Definition total_stock_value_retail (df_inventory : list Inv.row) : Z :=
  int (sum (map (fun i => (Inv.Balance_Stock i * Inv.Selling_Price i)%Q)
              df_inventory)).

Definition low_stock_threshold : Q := inject_Z 5.

Definition low_stock_items (df_inventory : list Inv.row) : list Inv.row :=
  filter (fun i => Qle_bool (Inv.Balance_Stock i) low_stock_threshold)
    df_inventory.

(* ================================================================== *)
(** * Weekly profit trend (line 124) *)

(** [ts - Week(weekday=0)] for a midnight [ts]: the Monday before it. *)
Definition minus_week_MON (ts : Z) : Z :=
  if weekday ts =? 0 then ts - WEEK
  else ts + ((0 - weekday ts) mod 7) * DAY - WEEK.

(** [ts + Week(weekday=0)] for a midnight [ts]: the Monday after it. *)
Definition plus_week_MON (ts : Z) : Z :=
  if weekday ts =? 0 then ts + WEEK
  else ts + ((0 - weekday ts) mod 7) * DAY.

(** [date_range(first, last, freq='W-MON')] between two Mondays. *)
Definition date_range_W (first last : Z) : list Z :=
  map (fun k => first + Z.of_nat k * WEEK)
    (seq 0 (S (Z.to_nat ((last - first) / WEEK)))).

(** The bin labels of [resample('W-Mon')] for data between [ax_min] and
    [ax_max].  The frequency ends its weeks on Monday, bins are closed
    and labelled on the right, and a bin's edge is the last nanosecond of
    its Monday; the last edge goes when the one before it is already
    past the data. *)
Definition week_labels (ax_min ax_max : Z) : list Z :=
  let first := minus_week_MON (normalize ax_min) in
  let last := plus_week_MON (normalize ax_max) in
  let binner := date_range_W first last in
  let binner :=
    if nth (List.length binner - 2) binner 0 + DAY - 1 >? ax_max
    then removelast binner
    else binner in
  tl binner.

(** The bin of [label]: from the Tuesday before to the end of [label]. *)
Definition in_week (label ts : Z) : bool :=
  (label - WEEK + DAY - 1 <? ts) && (ts <=? label + DAY - 1).

(** [series.resample('W-Mon').sum()] on a series indexed by timestamps:
    one entry per label, an empty bin sums to 0.  (pandas adds a bin's
    values in time order; over [Q] the order does not change the sum.) *)
Definition resample_W_MON_sum (series : list (Z * Q)) : list (Z * Q) :=
  match min_date (map fst series), max_date (map fst series) with
  | Some ax_min, Some ax_max =>
      map (fun label =>
             (label,
              sum (map snd (filter (fun v => in_week label (fst v)) series))))
        (week_labels ax_min ax_max)
  | _, _ => []
  end.

Definition weekly_profit (df_filtered : list Merged.row) : list (Z * Q) :=
  resample_W_MON_sum
    (map (fun r => (Merged.Sale_Date r, Merged.Profit r)) df_filtered).

(* ================================================================== *)
(** * Group-by aggregation (lines 130-149, 169) *)

(** One more value [v] for the group of key [k]; the groups are kept in
    ascending key order, as [groupby] returns them. *)
Fixpoint group_add {V A : Type} (start : V -> A) (step : A -> V -> A)
  (k : string) (v : V) (groups : list (string * A)) : list (string * A) :=
  match groups with
  | [] => [(k, start v)]
  | (k', a) :: rest =>
      match String.compare k k' with
      | Lt => (k, start v) :: groups
      | Eq => (k', step a v) :: rest
      | Gt => (k', a) :: group_add start step k v rest
      end
  end.

(** One row into the groups: a row whose key is NaN belongs to no group
    (dropna=True). *)
Definition group_step {R V A : Type} (key : R -> cell) (val : R -> V)
  (start : V -> A) (step : A -> V -> A)
  (groups : list (string * A)) (r : R) : list (string * A) :=
  match key r with
  | Some k => group_add start step k (val r) groups
  | None => groups
  end.

(** [df.groupby(key)[val].agg()] *)
Definition groupby {R V A : Type} (key : R -> cell) (val : R -> V)
  (start : V -> A) (step : A -> V -> A) (df : list R) : list (string * A) :=
  fold_left (group_step key val start step) df [].

(** The values of the rows whose key is [k], in frame order. *)
Definition values_of {R V : Type} (key : R -> cell) (val : R -> V)
  (k : string) (df : list R) : list V :=
  map val (filter (fun r => cell_eqb (key r) (Some k)) df).

(** Groups in strictly ascending key order. *)
Definition key_lt {A : Type} (x y : string * A) : Prop :=
  String.compare (fst x) (fst y) = Lt.

Definition ascending {A : Type} (groups : list (string * A)) : Prop :=
  StronglySorted key_lt groups.

(** The aggregate of the group of key [k], if [k] has a group. *)
Fixpoint lookup {A : Type} (k : string) (groups : list (string * A)) : option A :=
  match groups with
  | [] => None
  | (k', a) :: rest => if String.eqb k k' then Some a else lookup k rest
  end.

(** One more value into an aggregate that may not have started yet. *)
Definition accumulate {V A : Type} (start : V -> A) (step : A -> V -> A)
  (acc : option A) (v : V) : option A :=
  Some (match acc with
        | Some a => step a v
        | None => start v
        end).

(** [df.groupby(key)[val].sum()] *)
Definition groupby_sum {R : Type} (key : R -> cell) (val : R -> Q)
  (df : list R) : list (string * Q) :=
  groupby key val (Qplus 0%Q) Qplus df.

(** [df.groupby(key)[val].max()] on timestamps *)
Definition groupby_max {R : Type} (key : R -> cell) (val : R -> Z)
  (df : list R) : list (string * Z) :=
  groupby key val (fun v => v) Z.max df.

Fixpoint insert_by {A : Type} (le : A -> A -> bool) (x : A) (l : list A) : list A :=
  match l with
  | [] => [x]
  | y :: l' => if le x y then x :: l else y :: insert_by le x l'
  end.

(** [Series.sort_values(ascending=...)].  Entries with equal values keep
    their order here; pandas' default sort does not promise any order
    among them. *)
Definition sort_values (ascending : bool) (s : list (string * Q))
  : list (string * Q) :=
  fold_right
    (insert_by (fun a b => if ascending then Qle_bool (snd a) (snd b)
                           else Qle_bool (snd b) (snd a)))
    [] s.

(** [Series.nlargest(n)] *)
Definition nlargest (n : nat) (s : list (string * Q)) : list (string * Q) :=
  firstn n (sort_values false s).

Definition profit_by_installer (df_filtered : list Merged.row) : list (string * Q) :=
  sort_values true
    (groupby_sum Merged.Installer_Referral Merged.Profit df_filtered).

Definition profit_by_payment (df_filtered : list Merged.row) : list (string * Q) :=
  groupby_sum Merged.Payment_Method Merged.Profit df_filtered.

Definition top_products_by_profit (df_filtered : list Merged.row) : list (string * Q) :=
  sort_values false
    (nlargest 5 (groupby_sum Merged.Product_Name_Model Merged.Profit df_filtered)).

Definition top_products_by_quantity (df_filtered : list Merged.row) : list (string * Q) :=
  sort_values false
    (nlargest 5
       (groupby_sum Merged.Product_Name_Model Merged.Quantity_Sold df_filtered)).

Definition top_customers_by_profit (df_filtered : list Merged.row) : list (string * Q) :=
  sort_values false
    (nlargest 10 (groupby_sum Merged.Customer_Name Merged.Profit df_filtered)).

(* ================================================================== *)
(** * Slow-moving stock (lines 169-178) *)

(** The column ['Days Since Last Sale'] after [fillna('Never Sold')]. *)
Inductive DaysSince : Type :=
| Days (d : Z)
| Never_Sold.

Definition last_sale_dates (df_sales_merged : list Merged.row) : list (string * Z) :=
  groupby_max (fun r => Some (Merged.Item_ID r)) Merged.Sale_Date df_sales_merged.

Definition latest_date_in_data (df_sales_merged : list Merged.row) : option Z :=
  max_date (map Merged.Sale_Date df_sales_merged).

(** [(latest_date_in_data - last).dt.days], then [fillna('Never Sold')]:
    the whole days of the difference, NaN when either date is NaT. *)
Definition days_since_last_sale (latest : option Z) (last : option (string * Z))
  : DaysSince :=
  match latest, last with
  | Some a, Some (_, b) => Days ((a - b) / DAY)
  | _, _ => Never_Sold
  end.

Definition inventory_analysis (df_inventory : list Inv.row)
  (df_sales_merged : list Merged.row) : list (Inv.row * DaysSince) :=
  map (fun j => (fst j,
                 days_since_last_sale (latest_date_in_data df_sales_merged) (snd j)))
    (merge Inv.Item_ID fst df_inventory (last_sale_dates df_sales_merged)).

(** [pd.to_numeric(col, errors='coerce') > 90]: false on ['Never Sold']. *)
Definition over_90 (d : DaysSince) : bool :=
  match d with
  | Days n => n >? 90
  | Never_Sold => false
  end.

(** [col == 'Never Sold'] *)
Definition never_sold (d : DaysSince) : bool :=
  match d with
  | Days _ => false
  | Never_Sold => true
  end.

Definition slow_moving (df_inventory : list Inv.row)
  (df_sales_merged : list Merged.row) : list (Inv.row * DaysSince) :=
  filter (fun j => over_90 (snd j) || never_sold (snd j))
    (inventory_analysis df_inventory df_sales_merged).

(* ================================================================== *)
(** * The page (lines 76-179, once the password is accepted) *)

Module Dash.
(** The first tab: key metrics and trends. *)
Record tab1 : Type := {
  total_revenue : Z;
  total_profit : Z;
  total_items_sold : Z;
  avg_profit_margin : option Q;
  weekly_profit : list (Z * Q);
  profit_by_installer : list (string * Q);
  profit_by_payment : list (string * Q)
}.
(** The second tab: rankings. *)
Record tab2 : Type := {
  top_products_by_profit : list (string * Q);
  top_products_by_quantity : list (string * Q);
  top_customers_by_profit : list (string * Q)
}.
(** The third tab: inventory views. *)
Record tab3 : Type := {
  total_stock_value_cost : Z;
  total_stock_value_retail : Z;
  low_stock_items : list Inv.row;
  slow_moving : list (Inv.row * DaysSince)
}.
End Dash.

(** What one run of the script leaves on the page. *)
Inductive Page : Type :=
(** [st.error("An error occurred during data loading: ...")], [st.stop()] *)
| LoadError (e : Exception)
(** the run ends in [st.sidebar.date_input] (line 87), which raises on
    the NaT bounds that a merged frame without rows gives it *)
| DateInputError
(** [st.warning("No data available for the selected filters.")], [st.stop()] *)
| NoData
(** the run ends on the exception of line 149, after the first tab and
    the two product rankings *)
| Crashed (t1 : Dash.tab1) (by_profit by_quantity : list (string * Q))
    (e : Exception)
(** the three tabs *)
| Rendered (t1 : Dash.tab1) (t2 : Dash.tab2) (t3 : Dash.tab3).

Definition render_tab1 (df : list Merged.row) : Dash.tab1 :=
  {| Dash.total_revenue := total_revenue df;
     Dash.total_profit := total_profit df;
     Dash.total_items_sold := total_items_sold df;
     Dash.avg_profit_margin := avg_profit_margin df;
     Dash.weekly_profit := weekly_profit df;
     Dash.profit_by_installer := profit_by_installer df;
     Dash.profit_by_payment := profit_by_payment df |}.

Definition render_tab3 (df_inventory : list Inv.row)
  (df_sales_merged : list Merged.row) : Dash.tab3 :=
  {| Dash.total_stock_value_cost := total_stock_value_cost df_inventory;
     Dash.total_stock_value_retail := total_stock_value_retail df_inventory;
     Dash.low_stock_items := low_stock_items df_inventory;
     Dash.slow_moving := slow_moving df_inventory df_sales_merged |}.

(** [DataFrame.empty] *)
Definition empty {A : Type} (df : list A) : bool :=
  match df with
  | [] => true
  | _ :: _ => false
  end.

Section App.

Context {P : Parsers}.

(** The script from line 77 on.  [start_date], [end_date], [category] and
    [product_name] are what the three sidebar widgets return; on a
    merged frame without rows the run does not get as far as them. *)
Definition app (inventory : InvSheet.t) (sales : SalesSheet.t)
  (start_date end_date : Z) (category : list string) (product_name : list cell)
  : Page :=
  match load_data_from_gsheet inventory sales with
  | inl e => LoadError e
  | inr (df_inventory, df_sales_merged) =>
      let df :=
        df_filtered df_sales_merged start_date end_date category product_name in
      if empty df_sales_merged then DateInputError
      else if empty df then NoData
      else
        let t1 := render_tab1 df in
        let by_profit := top_products_by_profit df in
        let by_quantity := top_products_by_quantity df in
        if has_column "Customer Name" (SalesSheet.columns sales)
        then Rendered t1
               {| Dash.top_products_by_profit := by_profit;
                  Dash.top_products_by_quantity := by_quantity;
                  Dash.top_customers_by_profit := top_customers_by_profit df |}
               (render_tab3 df_inventory df_sales_merged)
        else Crashed t1 by_profit by_quantity (KeyError "Customer Name")
  end.

End App.

(* ================================================================== *)
(** * Notions the properties are stated with *)

(** Both sheets pass the column checks of lines 46-49. *)
Definition validated (inventory : InvSheet.t) (sales : SalesSheet.t) : bool :=
  forallb (fun col => has_column col (InvSheet.columns inventory))
    REQUIRED_INVENTORY_COLS
  && forallb (fun col => has_column col (SalesSheet.columns sales))
       REQUIRED_SALES_COLS.

(** Headers that do not clash: the identifier apart, no column is in
    both sheets; the sales sheet has no column named as one the script
    creates (lines 51 and 66), the inventory sheet none named as a
    column the script reads from the sales. *)
Definition plain_headers (inventory : InvSheet.t) (sales : SalesSheet.t) : bool :=
  forallb (fun col => String.eqb col "Item ID"
                      || negb (has_column col (map renamed (SalesSheet.columns sales))))
    (InvSheet.columns inventory)
  && forallb (fun col => negb (has_column col (SalesSheet.columns sales)))
       ["Item ID"; "Quantity Sold"; "Sale Date"; "Revenue"]
  && forallb (fun col => negb (has_column col (InvSheet.columns inventory)))
       ["Total Sale"; "Revenue"; "Customer Name"].


(** The sale timestamps of the item [id], in frame order. *)
Definition sales_of (id : string) (df_sales_merged : list Merged.row) : list Z :=
  values_of (fun r => Some (Merged.Item_ID r)) Merged.Sale_Date id df_sales_merged.

(** [t] is the latest sale date among the rows of [df] that satisfy
    [p]: the date of one of them, and none of them is later. *)
Definition latest_sale (p : Merged.row -> Prop) (df : list Merged.row) (t : Z)
  : Prop :=
  (exists r, In r df /\ p r /\ Merged.Sale_Date r = t) /\
  forall r, In r df -> p r -> Merged.Sale_Date r <= t.

(** Midnight of a Monday. *)
Definition monday (label : Z) : Prop :=
  weekday label = 0 /\ normalize label = label.

(** The profit of the rows of [df] that fall in the week of [label]. *)
Definition week_profit (df : list Merged.row) (label : Z) : Q :=
  sum (map Merged.Profit (filter (fun r => in_week label (Merged.Sale_Date r)) df)).

(** Linear arithmetic over days and weeks, with the divisions by their
    lengths. *)
Ltac euclid :=
  unfold monday, in_week, minus_week_MON, plus_week_MON, weekday, normalize,
    date, WEEK, DAY in *;
  repeat match goal with
         | |- context [?a =? ?b] => destruct (Z.eqb_spec a b)
         end;
  Z.to_euclidean_division_equations; lia.

(* ================================================================== *)
(** * A small instance of the parsers

    Plain decimal numbers and [YYYY-MM-DD] dates; pandas accepts these
    (and more). *)

Definition digit (c : ascii) : option Z :=
  let n := Z.of_nat (nat_of_ascii c) in
  if (48 <=? n) && (n <=? 57) then Some (n - 48) else None.

Fixpoint digits (acc : Z) (s : string) : option Z :=
  match s with
  | EmptyString => Some acc
  | String c s' =>
      match digit c with
      | Some d => digits (acc * 10 + d) s'
      | None => None
      end
  end.

Definition natural (s : string) : option Z :=
  match s with
  | EmptyString => None
  | _ => digits 0 s
  end.

Fixpoint split_dot (s : string) : string * option string :=
  match s with
  | EmptyString => (EmptyString, None)
  | String c s' =>
      if Ascii.eqb c "." then (EmptyString, Some s')
      else let (a, b) := split_dot s' in (String c a, b)
  end.

Definition unsigned_decimal (s : string) : option Q :=
  let (a, b) := split_dot s in
  match natural a, b with
  | Some n, None => Some (inject_Z n)
  | Some n, Some f =>
      match natural f with
      | Some m =>
          let scale := 10 ^ Z.of_nat (String.length f) in
          Some (Qmake (n * scale + m) (Z.to_pos scale))
      | None => None
      end
  | None, _ => None
  end.

Definition decimal (s : string) : option Q :=
  match s with
  | String "-" s' => option_map Qopp (unsigned_decimal s')
  | _ => unsigned_decimal s
  end.

(** Days from 1970-01-01 to the given day of the Gregorian calendar. *)
Definition days_from_civil (y m d : Z) : Z :=
  let y := if m <=? 2 then y - 1 else y in
  let era := y / 400 in
  let yoe := y - era * 400 in
  let doy := (153 * (if m >? 2 then m - 3 else m + 9) + 2) / 5 + d - 1 in
  let doe := yoe * 365 + yoe / 4 - yoe / 100 + doy in
  era * 146097 + doe - 719468.

Definition iso_date (s : string) : option Z :=
  match natural (substring 0 4 s), natural (substring 5 2 s),
        natural (substring 8 2 s) with
  | Some y, Some m, Some d =>
      if (String.length s =? 10)%nat
         && String.eqb (substring 4 1 s) "-" && String.eqb (substring 7 1 s) "-"
         && (1 <=? m) && (m <=? 12) && (1 <=? d)
         && (d <=? days_from_civil (if m =? 12 then y + 1 else y)
                     (if m =? 12 then 1 else m + 1) 1
                   - days_from_civil y m 1)
      then Some (days_from_civil y m d * DAY)
      else None
  | _, _, _ => None
  end.

Definition plain_parsers : Parsers :=
  {| parse_numeric := decimal; parse_datetime := iso_date |}.

(* ================================================================== *)
(** * Sample data *)

Definition inventory_row (id category product : cell) (cost price stock : cell)
  : InvSheet.row :=
  {| InvSheet.Item_ID := id;
     InvSheet.Category := category;
     InvSheet.Product_Name_Model := product;
     InvSheet.Supplier_Price := cost;
     InvSheet.Selling_Price := price;
     InvSheet.Balance_Stock := stock |}.

Definition sales_row (id qty day profit payment referral total customer : cell)
  : SalesSheet.row :=
  {| SalesSheet.Item_ID_Product := id;
     SalesSheet.Qty_Sold := qty;
     SalesSheet.Date := day;
     SalesSheet.Profit := profit;
     SalesSheet.Payment_Method := payment;
     SalesSheet.Installer_Referral := referral;
     SalesSheet.Total_Sale := total;
     SalesSheet.Revenue := None;
     SalesSheet.Customer_Name := customer |}.

(** The end-to-end example of the specification (section 8, item 6). *)
Definition sample_inventory : InvSheet.t :=
  {| InvSheet.columns := REQUIRED_INVENTORY_COLS;
     InvSheet.rows :=
       [inventory_row (Some "A1") (Some "Speakers") (Some "Cone 12")
          (Some "1000") (Some "1500") (Some "3")] |}.

Definition sample_sales : SalesSheet.t :=
  {| SalesSheet.columns := REQUIRED_SALES_COLS ++ ["Total Sale"; "Customer Name"];
     SalesSheet.rows :=
       [sales_row (Some "A1") (Some "2") (Some "2024-01-10") (Some "500")
          (Some "Cash") (Some "Bob") (Some "3000") (Some "Ann")] |}.

(** The same sales with the validated columns only. *)
Definition sales_without_total_sale : SalesSheet.t :=
  {| SalesSheet.columns := REQUIRED_SALES_COLS;
     SalesSheet.rows := SalesSheet.rows sample_sales |}.


(** An inventory row and a sales row whose identifiers are white space. *)
Definition blank_inventory_row : InvSheet.row :=
  inventory_row (Some "  ") (Some "Cables") (Some "RCA 2m")
    (Some "100") (Some "250") (Some "40").

Definition blank_sales_row : SalesSheet.row :=
  sales_row (Some " ") (Some "1") (Some "2024-01-10") (Some "150")
    (Some "Mpesa") (Some "Bob") (Some "250") (Some "Ann").

(** A normalized sale of A1 whose payment method and referral fields are
    empty, and one in which they are white space only; then the second
    as a merged row. *)
Definition sale_payment_missing : Sales.row :=
  {| Sales.Item_ID := "A1";
     Sales.Quantity_Sold := inject_Z 1;
     Sales.Sale_Date := 19732 * DAY;
     Sales.Profit := inject_Z 250;
     Sales.Payment_Method := None;
     Sales.Installer_Referral := None;
     Sales.Total_Sale := Some "1500";
     Sales.Customer_Name := Some "Ann" |}.

Definition sale_payment_blank : Sales.row :=
  {| Sales.Item_ID := "A1";
     Sales.Quantity_Sold := inject_Z 1;
     Sales.Sale_Date := 19732 * DAY;
     Sales.Profit := inject_Z 250;
     Sales.Payment_Method := Some "  ";
     Sales.Installer_Referral := Some " ";
     Sales.Total_Sale := Some "1500";
     Sales.Customer_Name := Some "Ann" |}.

Definition merged_payment_blank : Merged.row :=
  finish (P := plain_parsers) (sale_payment_blank, None).

(** A merged row of the given item, day, amounts, category and product. *)
Definition merged_row (id : string) (day : Z) (revenue profit qty : Q)
  (category : string) (product : cell) : Merged.row :=
  {| Merged.Item_ID := id;
     Merged.Quantity_Sold := qty;
     Merged.Sale_Date := day * DAY;
     Merged.Profit := profit;
     Merged.Payment_Method := Some "Cash";
     Merged.Installer_Referral := Some "Bob";
     Merged.Customer_Name := Some "Ann";
     Merged.Revenue := revenue;
     Merged.Category := category;
     Merged.Product_Name_Model := product;
     Merged.Supplier_Price := None;
     Merged.Selling_Price := None;
     Merged.Balance_Stock := None |}.

(** Two rows whose revenue and profit sums have a fractional part. *)
Definition fractional_rows : list Merged.row :=
  [merged_row "A1" 19732 (Qmake 3 2) (Qmake 3 4) (inject_Z 1) "Speakers" (Some "Cone 12");
   merged_row "A1" 19733 (inject_Z 1) (Qmake 3 4) (inject_Z 1) "Speakers" (Some "Cone 12")].


(** An inventory row of the given item. *)
Definition stock_row (id : string) : Inv.row :=
  {| Inv.Item_ID := id;
     Inv.Category := Some "Speakers";
     Inv.Product_Name_Model := Some "Cone 12";
     Inv.Supplier_Price := inject_Z 1000;
     Inv.Selling_Price := inject_Z 1500;
     Inv.Balance_Stock := inject_Z 3 |}.

(** Four items: last sold 91 days before the latest sale, 90 days before
    it, on its day, and never.  Day 19732 is 2024-01-10. *)
Definition staleness_inventory : list Inv.row :=
  [stock_row "A1"; stock_row "B2"; stock_row "C3"; stock_row "D4"].

Definition staleness_sales : list Merged.row :=
  [merged_row "A1" 19732 (inject_Z 10) (inject_Z 1) (inject_Z 1) "Speakers" (Some "Cone 12");
   merged_row "B2" 19733 (inject_Z 10) (inject_Z 1) (inject_Z 1) "Speakers" (Some "Cone 12");
   merged_row "D4" 19823 (inject_Z 10) (inject_Z 1) (inject_Z 1) "Speakers" (Some "Cone 12")].

(** Two sales two weeks apart: Monday 2024-01-01 (day 19723) and Monday
    2024-01-15 (day 19737). *)
Definition gap_rows : list Merged.row :=
  [merged_row "A1" 19723 (inject_Z 10) (inject_Z 5) (inject_Z 1) "Speakers" (Some "Cone 12");
   merged_row "A1" 19737 (inject_Z 10) (inject_Z 7) (inject_Z 1) "Speakers" (Some "Cone 12")].

(* ================================================================== *)
(** * Password gate (lines 14-31 and 76) *)

(** [st.session_state]: the two keys the script uses; [None] is an
    absent key. *)
Module Session.
Record state : Type := {
  password : option string;
  password_correct : option bool
}.
End Session.

(** The session state of a new session, before the first run. *)
Definition new_session : Session.state :=
  {| Session.password := None; Session.password_correct := None |}.

(** What [check_password] puts on the page. *)
Inductive Element : Type :=
| text_input (label : string)
| error (body : string).

(** [password_entered], the [on_change] callback of the password field;
    [secret] is [st.secrets["password"]]. *)
Definition password_entered (secret : string) (st : Session.state)
  : Session.state :=
  match Session.password st with
  | Some p =>
      if String.eqb p secret
      then {| Session.password := None; Session.password_correct := Some true |}
      else {| Session.password := Some p; Session.password_correct := Some false |}
  | None => {| Session.password := None; Session.password_correct := Some false |}
  end.

(** [check_password]: its result and the elements it renders. *)
Definition check_password (st : Session.state) : bool * list Element :=
  match Session.password_correct st with
  | None => (false, [text_input "Password"])
  | Some false => (false, [text_input "Password"; error "😕 Password incorrect"])
  | Some true => (true, [])
  end.

(** What a run of the script leaves in the session state: the password
    field, when [check_password] renders it, registers its key, with
    the empty text when the key is absent. *)
Definition rerun (st : Session.state) : Session.state :=
  if fst (check_password st) then st
  else
    match Session.password st with
    | Some _ => st
    | None => {| Session.password := Some "";
                 Session.password_correct := Session.password_correct st |}
    end.

(** The user submits [w] in the password field.  When [w] is the text
    the field holds already, nothing changes and nothing runs;
    otherwise Streamlit stores [w] under the field's key, runs the
    callback, then runs the script again. *)
Definition submit (secret w : string) (st : Session.state) : Session.state :=
  if String.eqb w (fillna "" (Session.password st)) then st
  else rerun (password_entered secret
                {| Session.password := Some w;
                   Session.password_correct := Session.password_correct st |}).

(** The submissions [entries], oldest first, from a state in which the
    script has run; [None] when one of them has no password field to go
    to, the page of that moment being past the gate. *)
Fixpoint submissions (secret : string) (entries : list string) (st : Session.state)
  : option Session.state :=
  match entries with
  | [] => Some st
  | w :: rest =>
      if fst (check_password st) then None
      else submissions secret rest (submit secret w st)
  end.

(** The session state after the first run of the script from [st] and
    the submissions [entries]. *)
Definition session (secret : string) (entries : list string) (st : Session.state)
  : option Session.state :=
  submissions secret entries (rerun st).

(** One run of the script: the password field, or the page behind it. *)
Inductive Screen : Type :=
| Locked (elements : list Element)
| Unlocked (page : Page).

Section Script.

Context {P : Parsers}.

(** The whole script (line 76: the page is behind [check_password]). *)
Definition script (st : Session.state)
  (inventory : InvSheet.t) (sales : SalesSheet.t)
  (start_date end_date : Z) (category : list string) (product_name : list cell)
  : Screen :=
  let (ok, elements) := check_password st in
  if ok
  then Unlocked (app inventory sales start_date end_date category product_name)
  else Locked elements.

End Script.

(** Sheets with white space around identifiers, a row without
    identifier, an unreadable stock, a sale of an unknown item and a sale
    without a valid date. *)
Definition spaced_inventory : InvSheet.t :=
  {| InvSheet.columns := REQUIRED_INVENTORY_COLS;
     InvSheet.rows :=
       [inventory_row (Some " A1") (Some " Speakers ") (Some "Cone 12")
          (Some "1000") (Some "1500") (Some "3");
        inventory_row None (Some "Cables") (Some "RCA 2m")
          (Some "100") (Some "250") (Some "40");
        inventory_row (Some "B2") None (Some "Amp 4ch")
          (Some "9000") (Some "12000") (Some "n/a")] |}.

Definition spaced_sales : SalesSheet.t :=
  {| SalesSheet.columns := REQUIRED_SALES_COLS ++ ["Total Sale"; "Customer Name"];
     SalesSheet.rows :=
       [sales_row (Some "A1 ") (Some "2") (Some "2024-01-10") (Some "500")
          (Some " Cash") (Some "Bob") (Some "3000") (Some "Ann");
        sales_row (Some "Z9") (Some "1") (Some "2024-01-15") (Some "200")
          (Some "Mpesa") None (Some "900") (Some "Joe");
        sales_row (Some "B2") (Some "1") (Some "soon") (Some "100")
          (Some "Cash") (Some "Bob") (Some "12000") (Some "Ann")] |}.

(** The two frames loaded from them. *)
Definition spaced_frames : list Inv.row * list Merged.row :=
  match load_data_from_gsheet (P := plain_parsers) spaced_inventory spaced_sales with
  | inr frames => frames
  | inl _ => ([], [])
  end.


(* ================================================================== *)
(** * Sidebar widgets (lines 85-96) *)

(** [Series.unique()]: the distinct values, in order of first appearance. *)
Fixpoint unique {A : Type} (eqb : A -> A -> bool) (l : list A) : list A :=
  match l with
  | [] => []
  | x :: l' => x :: filter (fun y => negb (eqb y x)) (unique eqb l')
  end.

(** Lines 85-86: the bounds and default value of the date range; [None]
    on a frame without rows. *)
Definition date_bounds (df_sales_merged : list Merged.row) : option (Z * Z) :=
  match min_date (map Merged.Sale_Date df_sales_merged),
        max_date (map Merged.Sale_Date df_sales_merged) with
  | Some lo, Some hi => Some (date lo, date hi)
  | _, _ => None
  end.

(** Line 92: the options, and default selection, of the category widget. *)
Definition category_options (df_sales_merged : list Merged.row)
  (start_date end_date : Z) : list string :=
  unique String.eqb
    (map Merged.Category (df_date_filtered df_sales_merged start_date end_date)).

(** Line 96: the options, and default selection, of the product widget. *)
Definition product_options (df_sales_merged : list Merged.row)
  (start_date end_date : Z) (category : list string) : list cell :=
  unique cell_eqb
    (map Merged.Product_Name_Model
       (df_cat_filtered df_sales_merged start_date end_date category)).

(** The order [sort_values] sorts by. *)
Definition by_value (ascending : bool) (a b : string * Q) : Prop :=
  if ascending then (snd a <= snd b)%Q else (snd b <= snd a)%Q.

(** [top] is the [n] largest of [groups], largest first: it has [n]
    entries, or all of them when there are fewer, and no group left out
    is larger than a listed one. *)
Definition top_of (n : nat) (groups top : list (string * Q)) : Prop :=
  List.length top = Nat.min n (List.length groups) /\
  StronglySorted (by_value false) top /\
  incl top groups /\
  forall x, In x groups -> In x top \/ forall y, In y top -> (snd x <= snd y)%Q.

(* ################################################################## *)
(** * Properties *)

Unset Implicit Arguments.

(* ================================================================== *)
(** * Properties: text *)

Lemma lstrip_blank (s : string) : blank s = true -> lstrip s = EmptyString.
Proof.
  induction s as [|c s IH]; simpl; intros H; [reflexivity|].
  apply andb_true_iff in H as [Hc Hs].
  rewrite Hc. now apply IH.
Qed.

Lemma strip_blank (s : string) : blank s = true -> strip s = EmptyString.
Proof.
  intros H. unfold strip. now rewrite (lstrip_blank s H).
Qed.

(* ================================================================== *)
(** * Properties: rows kept, left join *)

Lemma in_keep {A B : Type} (f : A -> option B) (l : list A) (a : A) (b : B) :
  In a l -> f a = Some b -> In b (keep f l).
Proof.
  induction l as [|x l IH]; simpl; intros Hin Hf; [contradiction|].
  destruct Hin as [->|Hin].
  - rewrite Hf. now left.
  - destruct (f x); [right|]; now apply IH.
Qed.

Lemma keep_in {A B : Type} (f : A -> option B) (l : list A) (b : B) :
  In b (keep f l) -> exists a, In a l /\ f a = Some b.
Proof.
  induction l as [|x l IH]; simpl; intros Hin; [contradiction|].
  destruct (f x) as [y|] eqn:Hx.
  - destruct Hin as [<-|Hin].
    + exists x. auto.
    + destruct (IH Hin) as (a & Ha & Hf). exists a. auto.
  - destruct (IH Hin) as (a & Ha & Hf). exists a. auto.
Qed.

Lemma matching_none {R : Type} (rkey : R -> string) (k : string) (right : list R) :
  ~ In k (map rkey right) -> matching rkey k right = [].
Proof.
  induction right as [|r right IH]; simpl; intros Hn; [reflexivity|].
  destruct (String.eqb_spec (rkey r) k) as [E|E].
  - exfalso. apply Hn. now left.
  - apply IH. intros Hin. apply Hn. now right.
Qed.

(** With keys that occur once, a key matches at most one right row. *)
Lemma matching_unique {R : Type} (rkey : R -> string) (k : string) (right : list R) :
  NoDup (map rkey right) -> (List.length (matching rkey k right) <= 1)%nat.
Proof.
  induction right as [|r right IH]; simpl; intros Hnd; [lia|].
  inversion Hnd as [|? ? Hnotin Hnd']; subst.
  destruct (String.eqb_spec (rkey r) k) as [E|E].
  - subst k. rewrite (matching_none rkey (rkey r) right Hnotin). simpl. lia.
  - now apply IH.
Qed.

Lemma merge_cons {L R : Type} (lkey : L -> string) (rkey : R -> string)
  (l : L) (left : list L) (right : list R) :
  merge lkey rkey (l :: left) right =
  match matching rkey (lkey l) right with
  | [] => [(l, None)]
  | ms => map (fun r => (l, Some r)) ms
  end ++ merge lkey rkey left right.
Proof. reflexivity. Qed.

Lemma merge_unique_keys {L R : Type} (lkey : L -> string) (rkey : R -> string)
  (left : list L) (right : list R) :
  NoDup (map rkey right) -> map fst (merge lkey rkey left right) = left.
Proof.
  intros Hnd. induction left as [|l left IH]; [reflexivity|].
  rewrite merge_cons, map_app, IH.
  pose proof (matching_unique rkey (lkey l) right Hnd) as Hlen.
  destruct (matching rkey (lkey l) right) as [|m [|m' ms]]; simpl in *;
    [reflexivity | reflexivity | lia].
Qed.

Lemma in_merge {L R : Type} (lkey : L -> string) (rkey : R -> string)
  (left : list L) (right : list R) (l : L) (r : R) :
  In l left -> In r right -> rkey r = lkey l ->
  In (l, Some r) (merge lkey rkey left right).
Proof.
  intros Hl Hr Hk. unfold merge. apply in_flat_map. exists l. split; [exact Hl|].
  assert (Hm : In r (matching rkey (lkey l) right)).
  { unfold matching. apply filter_In. split; [exact Hr|]. now apply String.eqb_eq. }
  destruct (matching rkey (lkey l) right) as [|m ms] eqn:E; [contradiction|].
  apply in_map_iff. exists r. split; [reflexivity | exact Hm].
Qed.

Section LoadProperties.

Context {P : Parsers}.

(** C1.  For every normalized sales table S and every normalized
    inventory table I in which no identifier occurs twice, the left
    join has exactly one row per row of S: the sales parts of the joined
    rows are S itself, in order, and the merged dataset has as many
    rows as S. *)
Theorem left_join_one_row_per_sale (S : list Sales.row) (I : list Inv.row) :
  NoDup (map Inv.Item_ID I) ->
  map fst (merge Sales.Item_ID Inv.Item_ID S I) = S /\
  List.length (map finish (merge Sales.Item_ID Inv.Item_ID S I)) = List.length S /\
  map Merged.Item_ID (map finish (merge Sales.Item_ID Inv.Item_ID S I))
    = map Sales.Item_ID S.
Proof.
  intros Hnd.
  pose proof (merge_unique_keys Sales.Item_ID Inv.Item_ID S I Hnd) as Hfst.
  split; [exact Hfst|]. split.
  - rewrite length_map. rewrite <- Hfst at 2. now rewrite length_map.
  - rewrite map_map. rewrite <- Hfst at 2. rewrite map_map.
    apply map_ext. intros [s oi]. reflexivity.
Qed.

End LoadProperties.

(* ================================================================== *)
(** * Properties: group-by *)

Lemma compare_lt_trans (a b c : string) :
  String.compare a b = Lt -> String.compare b c = Lt -> String.compare a c = Lt.
Proof.
  intros Hab Hbc.
  apply OrderedTypeEx.String_as_OT.cmp_lt.
  apply OrderedTypeEx.String_as_OT.lt_trans with b;
    now apply OrderedTypeEx.String_as_OT.cmp_lt.
Qed.

Lemma compare_gt_lt (a b : string) :
  String.compare a b = Gt -> String.compare b a = Lt.
Proof.
  intros H. rewrite String.compare_antisym, H. reflexivity.
Qed.

Lemma compare_eq (a b : string) : String.compare a b = Eq <-> a = b.
Proof. apply OrderedTypeEx.String_as_OT.cmp_eq. Qed.

Lemma compare_lt_neq (a b : string) : String.compare a b = Lt -> a <> b.
Proof.
  intros H E. apply compare_eq in E. congruence.
Qed.

Lemma lookup_below {A : Type} (k : string) (groups : list (string * A)) :
  Forall (fun y => String.compare k (fst y) = Lt) groups -> lookup k groups = None.
Proof.
  induction 1 as [|[k' a] rest Hlt _ IH]; simpl; [reflexivity|].
  destruct (String.eqb_spec k k') as [E|E]; [|exact IH].
  exfalso. simpl in Hlt. now apply (compare_lt_neq k k').
Qed.

Section GroupAdd.

Variables V A : Type.
Variable start : V -> A.
Variable step : A -> V -> A.

Lemma group_add_keys (k : string) (v : V) (groups : list (string * A))
  (Q : string * A -> Prop) :
  (forall a, Q (k, a)) -> (forall k' a a', Q (k', a) -> Q (k', a')) ->
  Forall Q groups -> Forall Q (group_add start step k v groups).
Proof.
  intros Hk Hsame. induction 1 as [|[k' a] rest Hx Hrest IH]; simpl.
  - constructor; [apply Hk | constructor].
  - destruct (String.compare k k') eqn:C.
    + constructor; [now apply Hsame with a | exact Hrest].
    + constructor; [apply Hk|]. constructor; assumption.
    + constructor; assumption.
Qed.

Lemma group_add_ascending (k : string) (v : V) (groups : list (string * A)) :
  ascending groups -> ascending (group_add start step k v groups).
Proof.
  induction 1 as [|[k' a] rest Hs IH Hall]; simpl.
  - constructor; constructor.
  - destruct (String.compare k k') eqn:C.
    + constructor; [exact Hs|]. exact Hall.
    + constructor; [constructor; assumption|].
      constructor; [exact C|].
      eapply Forall_impl; [|exact Hall].
      intros y Hy. unfold key_lt in *. simpl in *.
      now apply compare_lt_trans with k'.
    + constructor; [exact IH|].
      apply group_add_keys; [| |exact Hall].
      * intros a0. unfold key_lt. simpl. now apply compare_gt_lt.
      * intros k0 a0 a1 H0. exact H0.
Qed.

Lemma lookup_group_add (k k0 : string) (v : V) (groups : list (string * A)) :
  ascending groups ->
  lookup k0 (group_add start step k v groups) =
  if String.eqb k0 k then accumulate start step (lookup k groups) v
  else lookup k0 groups.
Proof.
  induction 1 as [|[k' a] rest Hs IH Hall]; simpl.
  - destruct (String.eqb k0 k); reflexivity.
  - destruct (String.compare k k') eqn:C.
    + apply compare_eq in C. subst k'. simpl.
      rewrite String.eqb_refl.
      destruct (String.eqb k0 k); reflexivity.
    + simpl.
      assert (Hnone : lookup k rest = None).
      { apply lookup_below. eapply Forall_impl; [|exact Hall].
        intros y Hy. unfold key_lt in Hy. simpl in Hy.
        now apply compare_lt_trans with k'. }
      destruct (String.eqb_spec k k') as [E|E];
        [exfalso; now apply (compare_lt_neq k k')|].
      rewrite Hnone.
      destruct (String.eqb_spec k0 k) as [E0|E0]; [reflexivity|].
      reflexivity.
    + simpl. rewrite IH.
      destruct (String.eqb_spec k k') as [E|E].
      { exfalso. subst k'. apply compare_gt_lt in C.
        now apply (compare_lt_neq k k). }
      destruct (String.eqb_spec k0 k') as [E1|E1]; [|reflexivity].
      subst k0. destruct (String.eqb_spec k' k) as [E2|E2]; [congruence|].
      reflexivity.
Qed.

End GroupAdd.

Section GroupBy.

Variables R V A : Type.
Variable key : R -> cell.
Variable val : R -> V.
Variable start : V -> A.
Variable step : A -> V -> A.

Lemma groupby_from (df : list R) (groups : list (string * A)) (k : string) :
  ascending groups ->
  ascending (fold_left (group_step key val start step) df groups) /\
  lookup k (fold_left (group_step key val start step) df groups) =
  fold_left (accumulate start step) (values_of key val k df) (lookup k groups).
Proof.
  revert groups. induction df as [|r df IH]; intros groups Hs; simpl.
  - split; [exact Hs | reflexivity].
  - unfold values_of. simpl. unfold group_step at 2 4.
    destruct (key r) as [k'|] eqn:Hk; simpl.
    + destruct (IH (group_add start step k' (val r) groups)
                  (group_add_ascending _ _ start step k' (val r) groups Hs))
        as [Hs' Hl].
      split; [exact Hs'|]. rewrite Hl.
      rewrite (lookup_group_add _ _ start step k' k (val r) groups Hs).
      rewrite (String.eqb_sym k' k).
      destruct (String.eqb_spec k k') as [E|E]; simpl.
      * subst k'. reflexivity.
      * reflexivity.
    + destruct (IH groups Hs) as [Hs' Hl]. split; assumption.
Qed.

Lemma groupby_ascending (df : list R) :
  ascending (groupby key val start step df).
Proof.
  apply (groupby_from df [] EmptyString). constructor.
Qed.

Lemma lookup_groupby (df : list R) (k : string) :
  lookup k (groupby key val start step df) =
  fold_left (accumulate start step) (values_of key val k df) None.
Proof.
  apply (groupby_from df [] k). constructor.
Qed.

End GroupBy.

Lemma in_ascending_lookup {A : Type} (groups : list (string * A)) (k : string) (a : A) :
  ascending groups -> (In (k, a) groups <-> lookup k groups = Some a).
Proof.
  induction 1 as [|[k' a'] rest Hs IH Hall]; simpl.
  - split; [contradiction | discriminate].
  - destruct (String.eqb_spec k k') as [E|E].
    + subst k'. split.
      * intros [Heq|Hin]; [congruence|].
        exfalso. rewrite Forall_forall in Hall.
        specialize (Hall _ Hin). unfold key_lt in Hall. simpl in Hall.
        now apply (compare_lt_neq k k).
      * intros Heq. left. congruence.
    + rewrite <- IH. split.
      * intros [Heq|Hin]; [congruence | exact Hin].
      * intros Hin. now right.
Qed.

Lemma accumulate_started {V A : Type} (start : V -> A) (step : A -> V -> A)
  (vs : list V) (a : A) :
  fold_left (accumulate start step) vs (Some a) = Some (fold_left step vs a).
Proof.
  revert a. induction vs as [|v vs IH]; intros a; simpl; [reflexivity|].
  apply IH.
Qed.

Lemma accumulate_sum (vs : list Q) :
  fold_left (accumulate (Qplus 0%Q) Qplus) vs None =
  match vs with
  | [] => None
  | _ :: _ => Some (sum vs)
  end.
Proof.
  destruct vs as [|v vs]; [reflexivity|].
  change (fold_left (accumulate (Qplus 0%Q) Qplus) (v :: vs) None)
    with (fold_left (accumulate (Qplus 0%Q) Qplus) vs (Some (0 + v)%Q)).
  rewrite accumulate_started. reflexivity.
Qed.

Lemma values_of_nonempty {R V : Type} (key : R -> cell) (val : R -> V)
  (k : string) (df : list R) :
  values_of key val k df <> [] <-> exists r, In r df /\ key r = Some k.
Proof.
  unfold values_of. split.
  - intros Hne.
    destruct (filter (fun r => cell_eqb (key r) (Some k)) df) as [|r l] eqn:E;
      [now elim Hne|].
    assert (Hin : In r (filter (fun r => cell_eqb (key r) (Some k)) df))
      by (rewrite E; now left).
    apply filter_In in Hin as [Hin Hk]. exists r. split; [exact Hin|].
    destruct (key r) as [k'|]; simpl in Hk; [|discriminate].
    apply String.eqb_eq in Hk. now subst.
  - intros (r & Hin & Hk) Hnil.
    assert (Hf : In r (filter (fun r => cell_eqb (key r) (Some k)) df)).
    { apply filter_In. split; [exact Hin|]. rewrite Hk. simpl.
      apply String.eqb_refl. }
    destruct (filter (fun r => cell_eqb (key r) (Some k)) df); [contradiction|].
    discriminate.
Qed.

(** The groups of [groupby(key)[val].sum()]: one per key that some row
    carries, holding the sum of the values of the rows with that key;
    rows whose key is NaN are in no group. *)
Lemma in_groupby_sum {R : Type} (key : R -> cell) (val : R -> Q)
  (df : list R) (k : string) (v : Q) :
  In (k, v) (groupby_sum key val df) <->
  (exists r, In r df /\ key r = Some k) /\ v = sum (values_of key val k df).
Proof.
  unfold groupby_sum.
  rewrite (in_ascending_lookup _ k v (groupby_ascending _ _ _ key val _ _ df)).
  rewrite lookup_groupby, accumulate_sum.
  rewrite <- values_of_nonempty with (val := val).
  destruct (values_of key val k df) as [|x l].
  - split; [discriminate | intros [H _]; now elim H].
  - split.
    + intros H. split; [discriminate | congruence].
    + intros [_ ->]. reflexivity.
Qed.

Lemma in_insert_by {A : Type} (le : A -> A -> bool) (x y : A) (l : list A) :
  In x (insert_by le y l) <-> x = y \/ In x l.
Proof.
  induction l as [|z l IH]; simpl.
  - intuition congruence.
  - destruct (le y z); simpl; rewrite ?IH; intuition congruence.
Qed.

Lemma in_sort_values (ascending : bool) (s : list (string * Q)) (x : string * Q) :
  In x (sort_values ascending s) <-> In x s.
Proof.
  unfold sort_values. induction s as [|y s IH]; simpl; [reflexivity|].
  rewrite in_insert_by, IH. intuition congruence.
Qed.

Lemma merge_left_in {L R : Type} (lkey : L -> string) (rkey : R -> string)
  (left : list L) (right : list R) (l : L) (o : option R) :
  In (l, o) (merge lkey rkey left right) -> In l left.
Proof.
  unfold merge. intros Hin. apply in_flat_map in Hin as (l' & Hl' & Hin).
  destruct (matching rkey (lkey l') right) as [|m ms].
  - destruct Hin as [E|[]]. now inversion E; subst.
  - apply in_map_iff in Hin as (r & E & _). now inversion E; subst.
Qed.

(* ================================================================== *)
(** * Properties: loading *)

Lemma has_column_in (col : string) (columns : list string) :
  has_column col columns = true <-> In col columns.
Proof.
  unfold has_column. rewrite existsb_exists. split.
  - intros (c & Hin & E). apply String.eqb_eq in E. now subst.
  - intros Hin. exists col. split; [exact Hin | apply String.eqb_refl].
Qed.

Lemma required_columns_incl (required columns : list string) :
  forallb (fun col => has_column col columns) required = true
  <-> incl required columns.
Proof.
  rewrite forallb_forall. unfold incl. split; intros H col Hin.
  - apply has_column_in. now apply H.
  - apply has_column_in. now apply H.
Qed.

(** With headers that do not clash the merged frame has every column,
    the identifier apart, under its own name. *)
Lemma plain_headers_shared (inventory : InvSheet.t) (sales : SalesSheet.t)
  (col : string) :
  plain_headers inventory sales = true -> col <> "Item ID" ->
  shared col inventory sales = false.
Proof.
  unfold plain_headers, shared. intros H Hne.
  apply andb_true_iff in H as [H _]. apply andb_true_iff in H as [H _].
  destruct (has_column col (InvSheet.columns inventory)) eqn:Ei; [|reflexivity].
  simpl. apply has_column_in in Ei. rewrite forallb_forall in H.
  specialize (H _ Ei). apply orb_true_iff in H as [H|H].
  - apply String.eqb_eq in H. contradiction.
  - now apply negb_true_iff in H.
Qed.

Lemma plain_headers_no_revenue (inventory : InvSheet.t) (sales : SalesSheet.t) :
  plain_headers inventory sales = true ->
  has_column "Revenue" (SalesSheet.columns sales) = false.
Proof.
  unfold plain_headers. intros H.
  apply andb_true_iff in H as [H _]. apply andb_true_iff in H as [_ H].
  cbn [forallb] in H. rewrite !andb_true_iff in H.
  destruct H as (_ & _ & _ & H & _). now apply negb_true_iff in H.
Qed.

Lemma normalize_revenue_row {P : Parsers} (r : SalesSheet.row) :
  normalize_sale (revenue_row r) =
  option_map (fun s =>
                {| Sales.Item_ID := Sales.Item_ID s;
                   Sales.Quantity_Sold := Sales.Quantity_Sold s;
                   Sales.Sale_Date := Sales.Sale_Date s;
                   Sales.Profit := Sales.Profit s;
                   Sales.Payment_Method := Sales.Payment_Method s;
                   Sales.Installer_Referral := Sales.Installer_Referral s;
                   Sales.Total_Sale := SalesSheet.Revenue r;
                   Sales.Customer_Name := Sales.Customer_Name s |})
    (normalize_sale r).
Proof.
  unfold normalize_sale, revenue_row. simpl.
  destruct (to_datetime (SalesSheet.Date r)); [|reflexivity].
  destruct (SalesSheet.Item_ID_Product r); reflexivity.
Qed.

Section Reconciler.

Context {P : Parsers}.

(** What a successful load returns. *)
Lemma load_success (inventory : InvSheet.t) (sales : SalesSheet.t)
  (df_inventory : list Inv.row) (df_merged : list Merged.row) :
  load_data_from_gsheet inventory sales = inr (df_inventory, df_merged) ->
  df_inventory = keep normalize_inventory (InvSheet.rows inventory) /\
  df_merged = map finish
                (merge Sales.Item_ID Inv.Item_ID
                   (keep normalize_sale (revenue_rows inventory sales))
                   df_inventory).
Proof.
  unfold load_data_from_gsheet.
  destruct (negb _); [discriminate|].
  destruct (negb _); [discriminate|].
  destruct (revenue_error _ _); [discriminate|].
  destruct (category_error _ _ _); [discriminate|].
  destruct (text_error _ _ _ _); [discriminate|].
  destruct (text_error _ _ _ _); [discriminate|].
  intros H. inversion H. split; reflexivity.
Qed.

(** Sheets that pass the column checks, with a 'Total Sale' column,
    headers that do not clash and text in the three text columns, are
    loaded. *)
Lemma load_plain (inventory : InvSheet.t) (sales : SalesSheet.t) :
  validated inventory sales = true ->
  has_column "Total Sale" (SalesSheet.columns sales) = true ->
  plain_headers inventory sales = true ->
  holds_text (map InvSheet.Category (InvSheet.rows inventory)) = true ->
  holds_text (map SalesSheet.Payment_Method (SalesSheet.rows sales)) = true ->
  holds_text (map SalesSheet.Installer_Referral (SalesSheet.rows sales)) = true ->
  load_data_from_gsheet inventory sales
  = inr (keep normalize_inventory (InvSheet.rows inventory),
         map finish
           (merge Sales.Item_ID Inv.Item_ID
              (keep normalize_sale (SalesSheet.rows sales))
              (keep normalize_inventory (InvSheet.rows inventory)))).
Proof.
  intros Hv Ht Hp Hc Hpay Hinst.
  unfold validated in Hv. apply andb_true_iff in Hv as [Hi Hs].
  unfold load_data_from_gsheet. rewrite Hi, Hs. cbn [negb].
  assert (Hts : from_sales "Total Sale" inventory sales = true).
  { unfold from_sales. rewrite Ht, (plain_headers_shared _ _ "Total Sale" Hp);
      [reflexivity | discriminate]. }
  assert (Hrv : from_sales "Revenue" inventory sales = false).
  { unfold from_sales. now rewrite (plain_headers_no_revenue _ _ Hp). }
  unfold revenue_error, revenue_rows. rewrite Hts, Hrv.
  unfold category_error.
  rewrite (plain_headers_shared _ _ "Category" Hp) by discriminate. rewrite Hc.
  unfold text_error.
  rewrite (plain_headers_shared _ _ "Payment Method" Hp) by discriminate.
  rewrite Hpay.
  rewrite (plain_headers_shared _ _ "Installer/Referral" Hp) by discriminate.
  rewrite Hinst. reflexivity.
Qed.

(** C4 (amended).  For every pair of sheets that pass the column checks,
    whose sales sheet has a 'Total Sale' column, whose headers do not
    clash and whose category, payment method and installer columns
    hold text, loading succeeds and every merged row carries a numeric
    revenue taken from the 'Total Sale' field of the sales row it comes
    from: the number the field parses to, and 0 when the field is empty
    or does not parse.  Neither prices nor quantities enter it. *)
Theorem revenue_from_total_sale (inventory : InvSheet.t) (sales : SalesSheet.t) :
  validated inventory sales = true ->
  has_column "Total Sale" (SalesSheet.columns sales) = true ->
  plain_headers inventory sales = true ->
  holds_text (map InvSheet.Category (InvSheet.rows inventory)) = true ->
  holds_text (map SalesSheet.Payment_Method (SalesSheet.rows sales)) = true ->
  holds_text (map SalesSheet.Installer_Referral (SalesSheet.rows sales)) = true ->
  exists df_inventory df_merged,
    load_data_from_gsheet inventory sales = inr (df_inventory, df_merged) /\
    forall r, In r df_merged ->
      exists rs,
        In rs (SalesSheet.rows sales) /\
        to_datetime (SalesSheet.Date rs) = Some (Merged.Sale_Date r) /\
        Merged.Profit r = fillna 0%Q (to_numeric (SalesSheet.Profit rs)) /\
        Merged.Quantity_Sold r = fillna 0%Q (to_numeric (SalesSheet.Qty_Sold rs)) /\
        Merged.Revenue r =
        match SalesSheet.Total_Sale rs with
        | None => 0%Q
        | Some text =>
            match parse_numeric text with
            | Some x => x
            | None => 0%Q
            end
        end.
Proof.
  intros Hv Ht Hp Hc Hpay Hinst.
  eexists. eexists. split; [now apply load_plain|].
  intros r Hr. apply in_map_iff in Hr as ([s oi] & <- & Hin).
  apply merge_left_in in Hin.
  apply keep_in in Hin as (rs & Hrs & Hn).
  exists rs. split; [exact Hrs|].
  unfold normalize_sale in Hn.
  destruct (to_datetime (SalesSheet.Date rs)); [|discriminate].
  destruct (SalesSheet.Item_ID_Product rs); [|discriminate].
  inversion Hn; subst s. simpl.
  repeat split.
  destruct (SalesSheet.Total_Sale rs) as [text|]; [|reflexivity].
  simpl. destruct (parse_numeric text); reflexivity.
Qed.

(** C10.  An identifier that is present but made of white space only
    does not drop its row: normalization keeps the row with the empty
    string as identifier (an inventory row always, a sales row when its
    date is valid); a row is dropped for its identifier only when the
    identifier is missing.  All such rows share the key "" and so join
    with each other. *)
Theorem blank_identifier_kept_and_joined
  (ri : InvSheet.row) (rs : SalesSheet.row) (id_i id_s : string) (d : Z) :
  InvSheet.Item_ID ri = Some id_i -> blank id_i = true ->
  SalesSheet.Item_ID_Product rs = Some id_s -> blank id_s = true ->
  to_datetime (SalesSheet.Date rs) = Some d ->
  exists i s,
    normalize_inventory ri = Some i /\ Inv.Item_ID i = "" /\
    normalize_sale rs = Some s /\ Sales.Item_ID s = "" /\
    (forall inventory_rows sales_rows,
        In ri inventory_rows -> In rs sales_rows ->
        In (finish (s, Some i))
          (map finish
             (merge Sales.Item_ID Inv.Item_ID
                (keep normalize_sale sales_rows)
                (keep normalize_inventory inventory_rows)))) /\
    (forall r, normalize_inventory r = None <-> InvSheet.Item_ID r = None) /\
    (forall r, normalize_sale r = None <->
               SalesSheet.Item_ID_Product r = None \/
               to_datetime (SalesSheet.Date r) = None).
Proof.
  intros Hi Hbi Hs Hbs Hd.
  unfold normalize_inventory, normalize_sale. rewrite Hi, Hs, Hd.
  eexists. eexists. split; [reflexivity|]. split; [now apply strip_blank|].
  split; [reflexivity|]. split; [now apply strip_blank|]. split; [|split].
  - intros inventory_rows sales_rows Hin_i Hin_s.
    apply in_map. apply in_merge.
    + apply in_keep with rs; [exact Hin_s|].
      unfold normalize_sale. now rewrite Hs, Hd.
    + apply in_keep with ri; [exact Hin_i|].
      unfold normalize_inventory. now rewrite Hi.
    + simpl. now rewrite (strip_blank id_i Hbi), (strip_blank id_s Hbs).
  - intros r. destruct (InvSheet.Item_ID r); split; intros H;
      try discriminate; reflexivity.
  - intros r. destruct (to_datetime (SalesSheet.Date r));
      destruct (SalesSheet.Item_ID_Product r); split; intros H;
      try discriminate; try reflexivity; auto;
      destruct H; discriminate.
Qed.

End Reconciler.


Section TextColumns.

Context {P : Parsers}.



End TextColumns.



(** A payment method of white space only does get the empty-string bucket. *)
Example blank_payment_has_its_bucket :
  profit_by_payment [merged_payment_blank] = [("", (0 + inject_Z 250)%Q)].
Proof. reflexivity. Qed.

(** C1 at the sample sheets. *)
Lemma left_join_one_row_per_sale_witness :
  NoDup (map Inv.Item_ID (keep (normalize_inventory (P := plain_parsers))
                            (InvSheet.rows sample_inventory))) /\
  List.length
    (map (finish (P := plain_parsers))
       (merge Sales.Item_ID Inv.Item_ID
          (keep (normalize_sale (P := plain_parsers)) (SalesSheet.rows sample_sales))
          (keep (normalize_inventory (P := plain_parsers))
             (InvSheet.rows sample_inventory)))) = 1%nat.
Proof.
  assert (Hnd : NoDup (map Inv.Item_ID
                         (keep (normalize_inventory (P := plain_parsers))
                            (InvSheet.rows sample_inventory)))).
  { simpl. constructor; [intros []|constructor]. }
  split; [exact Hnd|].
  exact (proj1 (proj2 (@left_join_one_row_per_sale plain_parsers
                         (keep normalize_sale (SalesSheet.rows sample_sales))
                         (keep normalize_inventory (InvSheet.rows sample_inventory))
                         Hnd))).
Defined.

(** C4, as stated, fails: sheets that pass the column checks but have no
    'Total Sale' column make the load raise KeyError. *)
Lemma revenue_column_missing_raises :
  validated sample_inventory sales_without_total_sale = true /\
  load_data_from_gsheet (P := plain_parsers) sample_inventory sales_without_total_sale
  = inl (KeyError "Revenue").
Proof.
  split; reflexivity.
Qed.

(** C4 (amended) at the sample sheets. *)
Lemma revenue_from_total_sale_witness :
  exists df_inventory df_merged,
    load_data_from_gsheet (P := plain_parsers) sample_inventory sample_sales
    = inr (df_inventory, df_merged) /\
    map Merged.Revenue df_merged = [inject_Z 3000].
Proof.
  destruct (@revenue_from_total_sale plain_parsers sample_inventory sample_sales
              eq_refl eq_refl eq_refl eq_refl eq_refl eq_refl)
    as (df_inventory & df_merged & Hload & _).
  exists df_inventory, df_merged. split; [exact Hload|].
  inversion Hload. reflexivity.
Defined.

(** C10 at an inventory row and a sales row whose identifiers are blank. *)
Lemma blank_identifier_kept_and_joined_witness :
  exists i s,
    normalize_inventory (P := plain_parsers) blank_inventory_row = Some i /\
    Inv.Item_ID i = "" /\
    normalize_sale (P := plain_parsers) blank_sales_row = Some s /\
    Sales.Item_ID s = "".
Proof.
  destruct (@blank_identifier_kept_and_joined plain_parsers
              blank_inventory_row blank_sales_row "  " " " (19732 * DAY)
              eq_refl eq_refl eq_refl eq_refl eq_refl)
    as (i & s & H1 & H2 & H3 & H4 & _).
  exists i, s. repeat split; assumption.
Defined.

(* ================================================================== *)
(** * Properties: key metrics *)







(** Revenue 5/2 and profit 3/2 are displayed as 2 and 1, and the margin
    is 1/2 * 100 = 50 where the sums give 60. *)
Example totals_of_fractional_rows :
  total_revenue fractional_rows = 2 /\
  total_profit fractional_rows = 1 /\
  (exists m, avg_profit_margin fractional_rows = Some m /\ (m == inject_Z 50)%Q) /\
  (sum (map Merged.Profit fractional_rows) / sum (map Merged.Revenue fractional_rows)
   * inject_Z 100 == inject_Z 60)%Q.
Proof.
  split; [reflexivity|]. split; [reflexivity|]. split.
  - eexists. split; [reflexivity|]. reflexivity.
  - reflexivity.
Qed.

(* ================================================================== *)
(** * Properties: sidebar filters and the page *)

Lemma filter_filter {A : Type} (f g : A -> bool) (l : list A) :
  filter f (filter g l) = filter (fun x => g x && f x) l.
Proof.
  induction l as [|x l IH]; simpl; [reflexivity|].
  destruct (g x); simpl; [destruct (f x)|]; now rewrite IH.
Qed.

Lemma cell_eqb_eq (a b : cell) : cell_eqb a b = true <-> a = b.
Proof.
  destruct a as [x|], b as [y|]; simpl; split; intros H;
    try discriminate; try reflexivity.
  - apply String.eqb_eq in H. now subst.
  - inversion H. apply String.eqb_refl.
Qed.

Lemma isin_string (x : string) (values : list string) :
  isin String.eqb x values = true <-> In x values.
Proof.
  unfold isin. rewrite existsb_exists. split.
  - intros (y & Hin & E). apply String.eqb_eq in E. now subst.
  - intros Hin. exists x. split; [exact Hin | apply String.eqb_refl].
Qed.

Lemma isin_cell (x : cell) (values : list cell) :
  isin cell_eqb x values = true <-> In x values.
Proof.
  unfold isin. rewrite existsb_exists. split.
  - intros (y & Hin & E). apply cell_eqb_eq in E. now subst.
  - intros Hin. exists x. split; [exact Hin | now apply cell_eqb_eq].
Qed.

Section Page.

Context {P : Parsers}.

(** C7.  The filtered frame holds exactly the merged records, in their
    order, whose sale date lies between [start_date] and [end_date],
    both included, whose category is one of [category] and whose
    product name is one of [product_name].  The merged frame itself is
    left as loaded: the inventory tab of the same run is computed from
    all of it, whatever the filters. *)
Theorem filter_is_conjunction
  (df_sales_merged : list Merged.row) (start_date end_date : Z)
  (category : list string) (product_name : list cell) :
  df_filtered df_sales_merged start_date end_date category product_name
  = filter (fun r => (start_date <=? date (Merged.Sale_Date r))
                     && (date (Merged.Sale_Date r) <=? end_date)
                     && isin String.eqb (Merged.Category r) category
                     && isin cell_eqb (Merged.Product_Name_Model r) product_name)
      df_sales_merged /\
  (forall r,
      In r (df_filtered df_sales_merged start_date end_date category product_name)
      <-> In r df_sales_merged /\
          start_date <= date (Merged.Sale_Date r) <= end_date /\
          In (Merged.Category r) category /\
          In (Merged.Product_Name_Model r) product_name) /\
  (forall inventory sales df_inventory t1 t2 t3,
      load_data_from_gsheet inventory sales = inr (df_inventory, df_sales_merged) ->
      app inventory sales start_date end_date category product_name
      = Rendered t1 t2 t3 ->
      t3 = render_tab3 df_inventory df_sales_merged).
Proof.
  assert (Heq :
    df_filtered df_sales_merged start_date end_date category product_name
    = filter (fun r => (start_date <=? date (Merged.Sale_Date r))
                       && (date (Merged.Sale_Date r) <=? end_date)
                       && isin String.eqb (Merged.Category r) category
                       && isin cell_eqb (Merged.Product_Name_Model r) product_name)
        df_sales_merged).
  { unfold df_filtered, df_cat_filtered, df_date_filtered.
    rewrite !filter_filter. apply filter_ext. intros r.
    now rewrite !andb_assoc. }
  split; [exact Heq|]. split.
  - intros r. rewrite Heq, filter_In.
    rewrite !andb_true_iff, isin_string, isin_cell, !Z.leb_le. tauto.
  - intros inventory sales df_inventory t1 t2 t3 Hload Happ.
    unfold app in Happ. rewrite Hload in Happ.
    destruct (empty df_sales_merged); [discriminate|].
    destruct (empty _); [discriminate|].
    destruct (has_column _ _); [|discriminate].
    now inversion Happ.
Qed.


End Page.


(* ================================================================== *)
(** * Properties: slow-moving stock *)

Lemma fold_max_ge (l : list Z) (a : Z) :
  a <= fold_left Z.max l a /\ forall x, In x l -> x <= fold_left Z.max l a.
Proof.
  revert a. induction l as [|y l IH]; intros a; simpl.
  - split; [lia | contradiction].
  - destruct (IH (Z.max a y)) as [H1 H2]. split; [lia|].
    intros x [<-|Hin]; [lia | now apply H2].
Qed.

Lemma fold_max_in (l : list Z) (a : Z) :
  fold_left Z.max l a = a \/ In (fold_left Z.max l a) l.
Proof.
  revert a. induction l as [|y l IH]; intros a; simpl; [now left|].
  destruct (IH (Z.max a y)) as [H|H]; [|now right; right].
  rewrite H. destruct (Z.max_spec a y) as [[_ ->]|[_ ->]]; auto.
Qed.

Lemma max_date_spec (l : list Z) (m : Z) :
  max_date l = Some m -> In m l /\ forall x, In x l -> x <= m.
Proof.
  destruct l as [|a l]; simpl; [discriminate|].
  intros H. inversion H; subst m. clear H. split.
  - destruct (fold_max_in l a) as [->|Hin]; auto.
  - destruct (fold_max_ge l a) as [H1 H2].
    intros x [<-|Hin]; [exact H1 | now apply H2].
Qed.

Lemma max_date_none (l : list Z) : max_date l = None <-> l = [].
Proof.
  destruct l; simpl; split; intros H; try discriminate; reflexivity.
Qed.

Lemma accumulate_max (vs : list Z) :
  fold_left (accumulate (fun v : Z => v) Z.max) vs None = max_date vs.
Proof.
  destruct vs as [|v vs]; [reflexivity|].
  change (fold_left (accumulate (fun v : Z => v) Z.max) (v :: vs) None)
    with (fold_left (accumulate (fun v : Z => v) Z.max) vs (Some v)).
  now rewrite accumulate_started.
Qed.

Lemma lookup_last_sale_dates (df_sales_merged : list Merged.row) (id : string) :
  lookup id (last_sale_dates df_sales_merged) = max_date (sales_of id df_sales_merged).
Proof.
  unfold last_sale_dates, groupby_max, sales_of.
  now rewrite lookup_groupby, accumulate_max.
Qed.

(** Against groups in ascending key order a key matches its group only. *)
Lemma matching_ascending {A : Type} (groups : list (string * A)) (k : string) :
  ascending groups ->
  matching fst k groups =
  match lookup k groups with
  | Some a => [(k, a)]
  | None => []
  end.
Proof.
  induction 1 as [|[k' a] rest Hs IH Hall]; simpl; [reflexivity|].
  rewrite (String.eqb_sym k k').
  destruct (String.eqb_spec k' k) as [E|E].
  - subst k'. f_equal. apply matching_none.
    intros Hin. apply in_map_iff in Hin as ([k0 a0] & E0 & Hin0).
    simpl in E0. subst k0. rewrite Forall_forall in Hall.
    specialize (Hall _ Hin0). unfold key_lt in Hall. simpl in Hall.
    now apply (compare_lt_neq k k).
  - exact IH.
Qed.

Lemma merge_ascending {L A : Type} (lkey : L -> string)
  (left : list L) (groups : list (string * A)) :
  ascending groups ->
  merge lkey fst left groups =
  map (fun l => (l, option_map (pair (lkey l)) (lookup (lkey l) groups))) left.
Proof.
  intros Hs. induction left as [|l left IH]; [reflexivity|].
  rewrite merge_cons, IH, (matching_ascending groups (lkey l) Hs).
  simpl. destruct (lookup (lkey l) groups); reflexivity.
Qed.

Lemma inventory_analysis_rows (df_inventory : list Inv.row)
  (df_sales_merged : list Merged.row) :
  inventory_analysis df_inventory df_sales_merged =
  map (fun i =>
         (i, match latest_date_in_data df_sales_merged,
                   max_date (sales_of (Inv.Item_ID i) df_sales_merged) with
             | Some a, Some b => Days ((a - b) / DAY)
             | _, _ => Never_Sold
             end))
    df_inventory.
Proof.
  unfold inventory_analysis.
  rewrite (merge_ascending Inv.Item_ID df_inventory (last_sale_dates df_sales_merged))
    by apply groupby_ascending.
  rewrite map_map. apply map_ext. intros i. simpl.
  rewrite lookup_last_sale_dates.
  destruct (max_date (sales_of (Inv.Item_ID i) df_sales_merged)) as [b|]; simpl;
    destruct (latest_date_in_data df_sales_merged); reflexivity.
Qed.

Lemma sales_of_nil (id : string) (df_sales_merged : list Merged.row) :
  sales_of id df_sales_merged = [] <->
  forall r, In r df_sales_merged -> Merged.Item_ID r <> id.
Proof.
  unfold sales_of. split.
  - intros Hnil r Hin E.
    apply (proj2 (values_of_nonempty (fun r => Some (Merged.Item_ID r))
                    Merged.Sale_Date id df_sales_merged)); [|exact Hnil].
    exists r. split; [exact Hin | now rewrite E].
  - intros Hall.
    destruct (values_of _ _ id df_sales_merged) as [|v vs] eqn:E; [reflexivity|].
    exfalso.
    assert (Hne : values_of (fun r => Some (Merged.Item_ID r)) Merged.Sale_Date
                    id df_sales_merged <> []) by (rewrite E; discriminate).
    apply values_of_nonempty in Hne as (r & Hin & Hk).
    inversion Hk. now apply (Hall r Hin).
Qed.

Lemma sales_of_latest (id : string) (df_sales_merged : list Merged.row) (t : Z) :
  In t (sales_of id df_sales_merged) ->
  exists latest, latest_date_in_data df_sales_merged = Some latest /\ t <= latest.
Proof.
  unfold sales_of, values_of, latest_date_in_data. intros Hin.
  apply in_map_iff in Hin as (r & <- & Hr). apply filter_In in Hr as [Hr _].
  assert (Hin : In (Merged.Sale_Date r) (map Merged.Sale_Date df_sales_merged))
    by now apply in_map.
  destruct (max_date (map Merged.Sale_Date df_sales_merged)) as [m|] eqn:E.
  - exists m. split; [reflexivity|]. now apply (max_date_spec _ m E).
  - apply max_date_none in E. rewrite E in Hin. contradiction.
Qed.

(** The rows of the slow-moving list, in terms of the two maxima the
    script computes. *)
Lemma slow_moving_rows
  (df_inventory : list Inv.row) (df_sales_merged : list Merged.row)
  (i : Inv.row) (d : DaysSince) :
  In (i, d) (slow_moving df_inventory df_sales_merged) <->
  In i df_inventory /\
  (((forall r, In r df_sales_merged -> Merged.Item_ID r <> Inv.Item_ID i) /\
    d = Never_Sold) \/
   (exists latest last,
       latest_date_in_data df_sales_merged = Some latest /\
       max_date (sales_of (Inv.Item_ID i) df_sales_merged) = Some last /\
       d = Days ((latest - last) / DAY) /\
       (latest - last) / DAY > 90)).
Proof.
  unfold slow_moving.
  rewrite filter_In, inventory_analysis_rows, in_map_iff. simpl.
  rewrite <- sales_of_nil.
  destruct (max_date (sales_of (Inv.Item_ID i) df_sales_merged)) as [b|] eqn:Eb.
  - destruct (max_date_spec _ b Eb) as [Hb _].
    destruct (sales_of_latest _ _ _ Hb) as (a & Ea & _).
    split.
    + intros [(i' & E & Hin) Hslow]. inversion E; subst i' d. clear E.
      rewrite Ea, Eb in *. simpl in Hslow. rewrite orb_false_r in Hslow.
      split; [exact Hin|]. right. exists a, b. repeat split; try reflexivity.
      apply Z.gtb_lt in Hslow. lia.
    + intros [Hin [[Hnil _]|(a' & b' & Ea' & Eb' & -> & Hgt)]].
      * rewrite Hnil in Eb. discriminate.
      * rewrite Ea in Ea'. inversion Ea'; inversion Eb'; subst a' b'.
        split.
        -- exists i. rewrite Ea, Eb. split; [reflexivity | exact Hin].
        -- simpl. rewrite orb_false_r. apply Z.gtb_lt. lia.
  - apply max_date_none in Eb. split.
    + intros [(i' & E & Hin) _]. inversion E; subst i' d. clear E.
      rewrite Eb. simpl. split; [exact Hin|]. left. split; [reflexivity|].
      destruct (latest_date_in_data df_sales_merged); reflexivity.
    + intros [Hin [[_ ->]|(a' & b' & _ & Eb' & _)]].
      * split; [|reflexivity].
        exists i. rewrite Eb. simpl. split; [|exact Hin].
        destruct (latest_date_in_data df_sales_merged); reflexivity.
      * discriminate.
Qed.

Lemma max_date_iff (l : list Z) (m : Z) :
  max_date l = Some m <-> In m l /\ forall x, In x l -> x <= m.
Proof.
  split; [apply max_date_spec|].
  intros [Hin Hmax].
  destruct (max_date l) as [m'|] eqn:E.
  - destruct (max_date_spec _ m' E) as [Hin' Hmax'].
    f_equal. specialize (Hmax m' Hin'). specialize (Hmax' m Hin). lia.
  - apply max_date_none in E. subst l. contradiction.
Qed.

(** [latest_date_in_data] is the latest sale date of the whole frame. *)
Lemma latest_date_in_data_spec (df_sales_merged : list Merged.row) (latest : Z) :
  latest_date_in_data df_sales_merged = Some latest
  <-> latest_sale (fun _ => True) df_sales_merged latest.
Proof.
  unfold latest_date_in_data, latest_sale. rewrite max_date_iff. split.
  - intros [Hin Hmax]. apply in_map_iff in Hin as (r & E & Hr). split.
    + exists r. auto.
    + intros r' Hr' _. apply Hmax. now apply in_map.
  - intros [(r & Hr & _ & E) Hmax]. split.
    + rewrite <- E. now apply in_map.
    + intros x Hx. apply in_map_iff in Hx as (r' & <- & Hr'). now apply Hmax.
Qed.

(** The last sale date of an item is the latest among its sales. *)
Lemma last_sale_spec (df_sales_merged : list Merged.row) (id : string) (last : Z) :
  max_date (sales_of id df_sales_merged) = Some last
  <-> latest_sale (fun r => Merged.Item_ID r = id) df_sales_merged last.
Proof.
  unfold sales_of, values_of, latest_sale. rewrite max_date_iff.
  assert (Hf : forall r, In r (filter (fun r => cell_eqb (Some (Merged.Item_ID r)) (Some id))
                                 df_sales_merged)
                         <-> In r df_sales_merged /\ Merged.Item_ID r = id).
  { intros r. rewrite filter_In. simpl. now rewrite String.eqb_eq. }
  split.
  - intros [Hin Hmax]. apply in_map_iff in Hin as (r & E & Hr).
    apply Hf in Hr as [Hr Hid]. split.
    + exists r. auto.
    + intros r' Hr' Hid'. apply Hmax. apply in_map. apply Hf. auto.
  - intros [(r & Hr & Hid & E) Hmax]. split.
    + rewrite <- E. apply in_map. apply Hf. auto.
    + intros x Hx. apply in_map_iff in Hx as (r' & <- & Hr').
      apply Hf in Hr' as [Hr' Hid']. now apply Hmax.
Qed.

(** C5.  An inventory row is listed as slow-moving if and only if its
    item has no sale in the whole merged dataset (it is then marked
    'Never Sold'), or the whole days from its most recent sale to the
    latest sale of the whole dataset are more than 90.  An item whose
    sales are all exactly 91 days before the latest sale of the dataset
    is listed; one whose sales are all exactly 90 days before it is
    not. *)
Theorem slow_moving_iff
  (df_inventory : list Inv.row) (df_sales_merged : list Merged.row) :
  (forall i d,
      In (i, d) (slow_moving df_inventory df_sales_merged) <->
      In i df_inventory /\
      (((forall r, In r df_sales_merged -> Merged.Item_ID r <> Inv.Item_ID i) /\
        d = Never_Sold) \/
       (exists latest last,
           latest_sale (fun _ => True) df_sales_merged latest /\
           latest_sale (fun r => Merged.Item_ID r = Inv.Item_ID i)
             df_sales_merged last /\
           d = Days ((latest - last) / DAY) /\
           (latest - last) / DAY > 90))) /\
  (forall i t latest,
      In i df_inventory ->
      (exists r, In r df_sales_merged /\ Merged.Item_ID r = Inv.Item_ID i) ->
      (forall r, In r df_sales_merged -> Merged.Item_ID r = Inv.Item_ID i ->
                 Merged.Sale_Date r = t) ->
      latest_sale (fun _ => True) df_sales_merged latest ->
      (latest - t = 91 * DAY ->
       In (i, Days 91) (slow_moving df_inventory df_sales_merged)) /\
      (latest - t = 90 * DAY ->
       forall d, ~ In (i, d) (slow_moving df_inventory df_sales_merged))).
Proof.
  assert (Hiff : forall i d,
      In (i, d) (slow_moving df_inventory df_sales_merged) <->
      In i df_inventory /\
      (((forall r, In r df_sales_merged -> Merged.Item_ID r <> Inv.Item_ID i) /\
        d = Never_Sold) \/
       (exists latest last,
           latest_sale (fun _ => True) df_sales_merged latest /\
           latest_sale (fun r => Merged.Item_ID r = Inv.Item_ID i)
             df_sales_merged last /\
           d = Days ((latest - last) / DAY) /\
           (latest - last) / DAY > 90))).
  { intros i d. rewrite slow_moving_rows. split.
    - intros [Hin [H|(latest & last & H1 & H2 & H3)]]; split; auto.
      right. exists latest, last.
      split; [now apply latest_date_in_data_spec|].
      split; [now apply last_sale_spec | exact H3].
    - intros [Hin [H|(latest & last & H1 & H2 & H3)]]; split; auto.
      right. exists latest, last.
      split; [now apply latest_date_in_data_spec|].
      split; [now apply last_sale_spec | exact H3]. }
  split; [exact Hiff|].
  intros i t latest Hin (r0 & Hr0 & Hid0) Hall Hlatest.
  assert (Hlast : latest_sale (fun r => Merged.Item_ID r = Inv.Item_ID i)
                    df_sales_merged t).
  { split.
    - exists r0. split; [exact Hr0|]. split; [exact Hid0 | now apply Hall].
    - intros r Hr Hid. rewrite (Hall r Hr Hid). lia. }
  assert (Huniq : forall last,
             latest_sale (fun r => Merged.Item_ID r = Inv.Item_ID i)
               df_sales_merged last -> last = t).
  { intros last [(r & Hr & Hid & E) _]. rewrite <- E. now apply Hall. }
  assert (Huniq' : forall latest',
             latest_sale (fun _ => True) df_sales_merged latest' -> latest' = latest).
  { intros latest' H'. apply latest_date_in_data_spec in H'.
    apply latest_date_in_data_spec in Hlatest. congruence. }
  split.
  - intros Hd. apply Hiff. split; [exact Hin|]. right.
    exists latest, t. rewrite Hd, Z.div_mul by discriminate.
    split; [exact Hlatest|]. split; [exact Hlast|].
    split; [reflexivity | lia].
  - intros Hd d Hslow.
    apply Hiff in Hslow as [_ [[Hnil _]|(a & b & Ha & Hb & _ & Hgt)]].
    + now apply (Hnil r0 Hr0).
    + apply Huniq in Hb. apply Huniq' in Ha. subst a b.
      rewrite Hd, Z.div_mul in Hgt by discriminate. lia.
Qed.

(** The four sample items: A1 (91 days) and C3 (never sold) are listed,
    B2 (90 days) and D4 are not. *)
Example slow_moving_of_sample :
  slow_moving staleness_inventory staleness_sales
  = [(stock_row "A1", Days 91); (stock_row "C3", Never_Sold)].
Proof. reflexivity. Qed.

(* ================================================================== *)
(** * Properties: weekly profit trend *)

Lemma minus_week_MON_spec (t : Z) :
  monday (minus_week_MON (normalize t)) /\
  minus_week_MON (normalize t) + DAY <= normalize t <= minus_week_MON (normalize t) + WEEK.
Proof. euclid. Qed.

Lemma plus_week_MON_spec (t : Z) :
  monday (plus_week_MON (normalize t)) /\
  normalize t < plus_week_MON (normalize t) <= normalize t + WEEK.
Proof. euclid. Qed.

Lemma normalize_bounds (t : Z) : normalize t <= t < normalize t + DAY.
Proof. euclid. Qed.

Lemma monday_plus_week (label : Z) : monday label -> monday (label + WEEK).
Proof. euclid. Qed.

Lemma monday_gap (a b : Z) :
  monday a -> monday b -> a < b ->
  1 <= (b - a) / WEEK /\ b = a + (b - a) / WEEK * WEEK.
Proof. euclid. Qed.

Lemma in_week_days (label t : Z) :
  normalize label = label ->
  (in_week label t = true <-> date label - 6 <= date t <= date label).
Proof.
  intros Hn. unfold in_week. rewrite andb_true_iff, Z.ltb_lt, Z.leb_le.
  euclid.
Qed.

Lemma fold_min_le (l : list Z) (a : Z) :
  fold_left Z.min l a <= a /\ forall x, In x l -> fold_left Z.min l a <= x.
Proof.
  revert a. induction l as [|y l IH]; intros a; simpl.
  - split; [lia | contradiction].
  - destruct (IH (Z.min a y)) as [H1 H2]. split; [lia|].
    intros x [<-|Hin]; [lia | now apply H2].
Qed.

Lemma fold_min_in (l : list Z) (a : Z) :
  fold_left Z.min l a = a \/ In (fold_left Z.min l a) l.
Proof.
  revert a. induction l as [|y l IH]; intros a; simpl; [now left|].
  destruct (IH (Z.min a y)) as [H|H]; [|now right; right].
  rewrite H. destruct (Z.min_spec a y) as [[_ ->]|[_ ->]]; auto.
Qed.

Lemma min_date_spec (l : list Z) (m : Z) :
  min_date l = Some m -> In m l /\ forall x, In x l -> m <= x.
Proof.
  destruct l as [|a l]; simpl; [discriminate|].
  intros H. inversion H; subst m. clear H. split.
  - destruct (fold_min_in l a) as [->|Hin]; auto.
  - destruct (fold_min_le l a) as [H1 H2].
    intros x [<-|Hin]; [exact H1 | now apply H2].
Qed.

Lemma date_range_W_tl (first : Z) (n : nat) :
  tl (map (fun k => first + Z.of_nat k * WEEK) (seq 0 (S n)))
  = map (fun k => first + WEEK + Z.of_nat k * WEEK) (seq 0 n).
Proof.
  simpl. rewrite <- seq_shift, map_map. apply map_ext.
  intros k. unfold WEEK, DAY. lia.
Qed.

Lemma date_range_W_removelast (first : Z) (n : nat) :
  removelast (map (fun k => first + Z.of_nat k * WEEK) (seq 0 (S n)))
  = map (fun k => first + Z.of_nat k * WEEK) (seq 0 n).
Proof.
  rewrite seq_S, map_app. simpl. apply removelast_last.
Qed.

Lemma date_range_W_before_last (first : Z) (n : nat) :
  (1 <= n)%nat ->
  nth (List.length (map (fun k => first + Z.of_nat k * WEEK) (seq 0 (S n))) - 2)
    (map (fun k => first + Z.of_nat k * WEEK) (seq 0 (S n))) 0
  = first + Z.of_nat n * WEEK - WEEK.
Proof.
  intros Hn. rewrite length_map, length_seq.
  replace (S n - 2)%nat with (n - 1)%nat by lia.
  rewrite nth_indep with (d' := first + Z.of_nat 0 * WEEK)
    by (rewrite length_map, length_seq; lia).
  rewrite (map_nth (fun k => first + Z.of_nat k * WEEK)).
  rewrite seq_nth by lia. unfold WEEK, DAY. lia.
Qed.

(** The labels of [resample('W-Mon')]: consecutive Mondays, from the
    first Monday on or after the earliest timestamp to a Monday whose
    week reaches the latest one. *)
Lemma week_labels_spec (ax_min ax_max : Z) :
  ax_min <= ax_max ->
  exists first n,
    week_labels ax_min ax_max
    = map (fun k => first + Z.of_nat k * WEEK) (seq 0 n) /\
    (0 < n)%nat /\ monday first /\
    in_week first ax_min = true /\
    ax_max <= first + (Z.of_nat n - 1) * WEEK + DAY - 1.
Proof.
  intros Hle. unfold week_labels.
  destruct (minus_week_MON_spec ax_min) as [Hm1 Hb1].
  destruct (plus_week_MON_spec ax_max) as [Hm2 Hb2].
  pose proof (normalize_bounds ax_min) as Hn1.
  pose proof (normalize_bounds ax_max) as Hn2.
  set (F := minus_week_MON (normalize ax_min)) in *.
  set (La := plus_week_MON (normalize ax_max)) in *.
  assert (HFL : F < La) by (unfold WEEK, DAY in *; lia).
  destruct (monday_gap F La Hm1 Hm2 HFL) as [Hm HLa].
  unfold date_range_W.
  set (m := Z.to_nat ((La - F) / WEEK)).
  assert (Hmz : Z.of_nat m = (La - F) / WEEK) by (unfold m; lia).
  assert (Hm1' : (1 <= m)%nat) by lia.
  rewrite (date_range_W_before_last F m Hm1').
  exists (F + WEEK).
  destruct (Z.gtb_spec (F + Z.of_nat m * WEEK - WEEK + DAY - 1) ax_max) as [Hdrop|Hkeep].
  - rewrite date_range_W_removelast.
    destruct m as [|m']; [lia|].
    rewrite date_range_W_tl. exists m'. split; [reflexivity|].
    assert (Hpos : (0 < m')%nat).
    { destruct m'; [|lia]. exfalso. unfold WEEK, DAY in *. lia. }
    split; [exact Hpos|]. split; [now apply monday_plus_week|].
    split.
    + unfold in_week. rewrite andb_true_iff, Z.ltb_lt, Z.leb_le.
      unfold WEEK, DAY in *. lia.
    + unfold WEEK, DAY in *. lia.
  - rewrite date_range_W_tl. exists m. split; [reflexivity|].
    split; [lia|]. split; [now apply monday_plus_week|].
    split.
    + unfold in_week. rewrite andb_true_iff, Z.ltb_lt, Z.leb_le.
      unfold WEEK, DAY in *. lia.
    + unfold WEEK, DAY in *. lia.
Qed.

Lemma filter_map_comm {A B : Type} (f : B -> bool) (g : A -> B) (l : list A) :
  filter f (map g l) = map g (filter (fun a => f (g a)) l).
Proof.
  induction l as [|a l IH]; simpl; [reflexivity|].
  destruct (f (g a)); simpl; now rewrite IH.
Qed.

Lemma filter_none {A : Type} (f : A -> bool) (l : list A) :
  (forall x, In x l -> f x = false) -> filter f l = [].
Proof.
  induction l as [|a l IH]; simpl; intros H; [reflexivity|].
  rewrite (H a) by now left. apply IH. intros x Hx. apply H. now right.
Qed.

Lemma bucket_of (first t : Z) (n : nat) :
  first - WEEK + DAY - 1 < t ->
  t <= first + (Z.of_nat n - 1) * WEEK + DAY - 1 ->
  exists k, (k < n)%nat /\ in_week (first + Z.of_nat k * WEEK) t = true.
Proof.
  intros Hlo Hhi.
  exists (Z.to_nat ((t - first - DAY + WEEK) / WEEK)).
  unfold in_week. rewrite andb_true_iff, Z.ltb_lt, Z.leb_le.
  assert (H0 : 0 <= (t - first - DAY + WEEK) / WEEK)
    by (unfold WEEK, DAY in *; Z.to_euclidean_division_equations; lia).
  rewrite Z2Nat.id by exact H0.
  split; [|unfold WEEK, DAY in *; Z.to_euclidean_division_equations; lia].
  apply Nat2Z.inj_lt. rewrite Z2Nat.id by exact H0.
  unfold WEEK, DAY in *. Z.to_euclidean_division_equations. lia.
Qed.

(** C2 (amended).  For every non-empty filtered record set the weekly
    profit trend has one entry per week, for consecutive weeks that end
    on a Monday (Tuesday to Monday, labelled with that Monday), in
    ascending order from the week of the earliest record on; an entry
    holds the sum of the profit of the records of its week, every
    record falls in one of the weeks, and a week in which no record
    falls is kept with the sum 0. *)
Theorem weekly_profit_buckets (df : list Merged.row) :
  df <> [] ->
  exists first n,
    (0 < n)%nat /\ monday first /\
    weekly_profit df
    = map (fun k => (first + Z.of_nat k * WEEK,
                     week_profit df (first + Z.of_nat k * WEEK)))
        (seq 0 n) /\
    (forall label t, normalize label = label ->
       (in_week label t = true <-> date label - 6 <= date t <= date label)) /\
    (exists r, In r df /\ in_week first (Merged.Sale_Date r) = true) /\
    (forall r, In r df ->
       exists k, (k < n)%nat /\
                 in_week (first + Z.of_nat k * WEEK) (Merged.Sale_Date r) = true) /\
    (forall k, (k < n)%nat ->
       (forall r, In r df ->
          in_week (first + Z.of_nat k * WEEK) (Merged.Sale_Date r) = false) ->
       In (first + Z.of_nat k * WEEK, 0%Q) (weekly_profit df)).
Proof.
  intros Hne. unfold weekly_profit, resample_W_MON_sum.
  rewrite map_map. simpl.
  destruct (min_date (map Merged.Sale_Date df)) as [lo|] eqn:Elo.
  2:{ destruct df; [now elim Hne | discriminate]. }
  destruct (max_date (map Merged.Sale_Date df)) as [hi|] eqn:Ehi.
  2:{ destruct df; [now elim Hne | discriminate]. }
  destruct (min_date_spec _ lo Elo) as [Hlo_in Hlo].
  destruct (max_date_spec _ hi Ehi) as [Hhi_in Hhi].
  destruct (week_labels_spec lo hi (Hlo hi Hhi_in))
    as (first & n & Hlabels & Hn & Hmon & Hfirst & Hlast).
  assert (Hmap :
    map (fun label =>
           (label,
            sum (map snd
                   (filter (fun v : Z * Q => in_week label (fst v))
                      (map (fun r => (Merged.Sale_Date r, Merged.Profit r)) df)))))
      (week_labels lo hi)
    = map (fun k => (first + Z.of_nat k * WEEK,
                     week_profit df (first + Z.of_nat k * WEEK)))
        (seq 0 n)).
  { rewrite Hlabels, map_map. apply map_ext. intros k.
    unfold week_profit. now rewrite filter_map_comm, map_map. }
  exists first, n. rewrite Hmap.
  split; [exact Hn|]. split; [exact Hmon|]. split; [reflexivity|].
  split; [exact in_week_days|]. split; [|split].
  - apply in_map_iff in Hlo_in as (r & Er & Hr).
    exists r. split; [exact Hr | now rewrite Er].
  - intros r Hr.
    assert (Hin : In (Merged.Sale_Date r) (map Merged.Sale_Date df))
      by now apply in_map.
    pose proof (Hlo _ Hin) as H1. pose proof (Hhi _ Hin) as H2.
    apply bucket_of; [|lia].
    unfold in_week in Hfirst.
    apply andb_true_iff in Hfirst as [Hf _]. apply Z.ltb_lt in Hf. lia.
  - intros k Hk Hnone. apply in_map_iff. exists k.
    split; [|apply in_seq; lia].
    f_equal. unfold week_profit.
    now rewrite (filter_none _ df Hnone).
Qed.

(** C2, as stated, fails: the two sales of [gap_rows] are two weeks
    apart, and the trend still has an entry, with profit 0, for the
    week between them, in which no sale falls. *)
Lemma weekly_profit_keeps_empty_weeks :
  weekly_profit gap_rows
  = [(19723 * DAY, inject_Z 5); (19730 * DAY, 0%Q); (19737 * DAY, inject_Z 7)] /\
  forall r, In r gap_rows -> in_week (19730 * DAY) (Merged.Sale_Date r) = false.
Proof.
  split; [reflexivity|].
  intros r [<-|[<-|[]]]; reflexivity.
Qed.

(** C2 (amended) at [gap_rows]. *)
Lemma weekly_profit_buckets_witness :
  exists first n,
    (0 < n)%nat /\ monday first /\
    weekly_profit gap_rows
    = map (fun k => (first + Z.of_nat k * WEEK,
                     week_profit gap_rows (first + Z.of_nat k * WEEK)))
        (seq 0 n).
Proof.
  destruct (weekly_profit_buckets gap_rows) as (first & n & H1 & H2 & H3 & _).
  - discriminate.
  - exists first, n. split; [exact H1|]. split; [exact H2 | exact H3].
Defined.

(* ================================================================== *)
(** * The sample data, evaluated *)

(** The day numbers used in the sample data. *)
Example sample_days :
  iso_date "2024-01-01" = Some (19723 * DAY) /\ weekday (19723 * DAY) = 0 /\
  iso_date "2024-01-10" = Some (19732 * DAY) /\
  iso_date "2024-01-15" = Some (19737 * DAY) /\
  iso_date "2024-04-10" = Some (19823 * DAY).
Proof. repeat split; reflexivity. Qed.

(** The end-to-end example of the specification: revenue 3000, profit
    500, 2 items sold, margin 500 / 3000 * 100, stock worth 3000 at cost
    and 4500 at retail, A1 low on stock; the week of the sale ends on
    Monday 2024-01-15. *)
Example sample_dashboard :
  exists t1 t2 t3,
    app (P := plain_parsers) sample_inventory sample_sales 19723 19754
      ["Speakers"] [Some "Cone 12"] = Rendered t1 t2 t3 /\
    Dash.total_revenue t1 = 3000 /\
    Dash.total_profit t1 = 500 /\
    Dash.total_items_sold t1 = 2 /\
    Dash.avg_profit_margin t1
    = Some (inject_Z 500 / inject_Z 3000 * inject_Z 100)%Q /\
    Dash.weekly_profit t1 = [(19737 * DAY, inject_Z 500)] /\
    Dash.total_stock_value_cost t3 = 3000 /\
    Dash.total_stock_value_retail t3 = 4500 /\
    map Inv.Item_ID (Dash.low_stock_items t3) = ["A1"] /\
    Dash.slow_moving t3 = [].
Proof.
  eexists. eexists. eexists. split; [reflexivity|].
  repeat split; reflexivity.
Qed.

(** Without a 'Total Sale' column the same run ends on the load error. *)
Example sample_without_total_sale :
  app (P := plain_parsers) sample_inventory sales_without_total_sale 19723 19754
    ["Speakers"] [Some "Cone 12"] = LoadError (KeyError "Revenue").
Proof. reflexivity. Qed.

(* ================================================================== *)
(** * Properties: password gate *)

Lemma submissions_app (secret : string) (entries : list string) (w : string)
  (st : Session.state) :
  submissions secret (entries ++ [w]) st =
  match submissions secret entries st with
  | Some st' =>
      if fst (check_password st') then None else Some (submit secret w st')
  | None => None
  end.
Proof.
  revert st. induction entries as [|e entries IH]; intros st; simpl.
  - destruct (fst (check_password st)); reflexivity.
  - destruct (fst (check_password st)); [reflexivity | apply IH].
Qed.

Lemma session_app (secret : string) (entries : list string) (w : string)
  (st : Session.state) :
  session secret (entries ++ [w]) st =
  match session secret entries st with
  | Some st' =>
      if fst (check_password st') then None else Some (submit secret w st')
  | None => None
  end.
Proof. unfold session. apply submissions_app. Qed.

(** A submission that changes the field: the callback decides. *)
Lemma submit_changed (secret w p : string) (c : option bool) :
  w <> p ->
  submit secret w {| Session.password := Some p; Session.password_correct := c |} =
  if String.eqb w secret
  then {| Session.password := None; Session.password_correct := Some true |}
  else {| Session.password := Some w; Session.password_correct := Some false |}.
Proof.
  intros Hne. unfold submit, password_entered. simpl.
  destruct (String.eqb_spec w p) as [E|_]; [contradiction|].
  destruct (String.eqb w secret); reflexivity.
Qed.

(** A submission of the text the field holds: nothing happens. *)
Lemma submit_unchanged (secret p : string) (c : option bool) :
  submit secret p {| Session.password := Some p; Session.password_correct := c |}
  = {| Session.password := Some p; Session.password_correct := c |}.
Proof. unfold submit. simpl. now rewrite String.eqb_refl. Qed.

(** The states a session goes through, for a secret that is not the
    empty text: past the gate after the secret; otherwise the field
    holds the last submission and the error is there once a submission
    has changed the field. *)
Lemma session_state (secret : string) (entries : list string) (st : Session.state) :
  secret <> "" ->
  session secret entries new_session = Some st ->
  match rev entries with
  | [] => st = {| Session.password := Some ""; Session.password_correct := None |}
  | w :: _ =>
      if String.eqb w secret
      then st = {| Session.password := None; Session.password_correct := Some true |}
      else st = {| Session.password := Some w;
                   Session.password_correct :=
                     if forallb (String.eqb "") entries then None else Some false |}
  end.
Proof.
  intros Hsecret. revert st.
  induction entries as [|w entries IH] using rev_ind; intros st.
  - simpl. intros H. now inversion H.
  - rewrite session_app, rev_app_distr.
    change (rev [w] ++ rev entries) with (w :: rev entries).
    destruct (session secret entries new_session) as [st'|]; [|discriminate].
    specialize (IH st' eq_refl).
    destruct (fst (check_password st')) eqn:Elocked; [discriminate|].
    intros H. inversion H as [Hst]. clear H.
    rewrite forallb_app. cbn [forallb]. rewrite andb_true_r.
    destruct (rev entries) as [|w' rest] eqn:Erev.
    + assert (entries = []) as -> by (now rewrite <- (rev_involutive entries), Erev).
      subst st'. cbn [forallb andb].
      destruct (String.eqb_spec "" w) as [<-|Hw].
      * rewrite submit_unchanged.
        destruct (String.eqb_spec "" secret) as [E|_]; [now elim Hsecret|].
        reflexivity.
      * rewrite submit_changed by congruence.
        destruct (String.eqb w secret); reflexivity.
    + assert (Hin : In w' entries).
      { apply in_rev. rewrite Erev. now left. }
      destruct (String.eqb_spec w' secret) as [E|Hw'].
      { subst st'. discriminate. }
      subst st'.
      destruct (String.eqb_spec w w') as [->|Hne].
      * rewrite submit_unchanged.
        destruct (String.eqb_spec w' secret) as [E|_]; [contradiction|].
        destruct (forallb (String.eqb "") entries) eqn:Eall.
        -- rewrite forallb_forall in Eall. now rewrite (Eall w' Hin).
        -- reflexivity.
      * rewrite submit_changed by exact Hne.
        destruct (String.eqb w secret); [reflexivity|].
        destruct (forallb (String.eqb "") entries) eqn:Eall; [|reflexivity].
        rewrite forallb_forall in Eall. specialize (Eall w' Hin).
        apply String.eqb_eq in Eall. subst w'.
        destruct (String.eqb_spec "" w) as [E|_]; [now elim Hne | reflexivity].
Qed.

(** X1.  The gate opens on the secret and on nothing else.  For a secret
    that is not the empty text: after any submissions, the session is
    past the gate exactly when the last submission was the secret, in
    which case the password has been deleted from the session state;
    after another one the field is shown again, holding that
    submission, with the error once a submission has changed the
    field (submitting the text the field already holds runs nothing). *)
Theorem gate_follows_last_submission
  (secret : string) (entries : list string) (st : Session.state) :
  secret <> "" ->
  session secret entries new_session = Some st ->
  match rev entries with
  | [] => Session.password st = Some "" /\
          check_password st = (false, [text_input "Password"])
  | w :: _ =>
      if String.eqb w secret
      then Session.password st = None /\ check_password st = (true, [])
      else Session.password st = Some w /\
           check_password st
           = (false,
              if forallb (String.eqb "") entries
              then [text_input "Password"]
              else [text_input "Password"; error "😕 Password incorrect"])
  end.
Proof.
  intros Hsecret Hs. pose proof (session_state secret entries st Hsecret Hs) as H.
  destruct (rev entries) as [|w rest].
  - subst st. split; reflexivity.
  - destruct (String.eqb w secret).
    + subst st. split; reflexivity.
    + subst st. split; [reflexivity|].
      destruct (forallb (String.eqb "") entries); reflexivity.
Qed.

(** X2.  A secret that is not the empty text is never left in the
    session state. *)
Theorem secret_not_kept_in_session
  (secret : string) (entries : list string) (st : Session.state) :
  secret <> "" ->
  session secret entries new_session = Some st ->
  Session.password st <> Some secret.
Proof.
  intros Hsecret Hs. pose proof (session_state secret entries st Hsecret Hs) as H.
  destruct (rev entries) as [|w rest].
  - subst st. simpl. intros E. inversion E. now apply Hsecret.
  - destruct (String.eqb_spec w secret) as [E|E]; subst st; simpl.
    + discriminate.
    + intros E'. inversion E'. contradiction.
Qed.

Section ScriptProperties.

Context {P : Parsers}.

(** X3.  No run shows anything but the password field unless the secret has
    been submitted: while every submission differs from the secret, the
    script renders no page, whatever the sheets and the filters. *)
Theorem nothing_rendered_before_the_secret
  (secret : string) (entries : list string) (st : Session.state)
  (inventory : InvSheet.t) (sales : SalesSheet.t)
  (start_date end_date : Z) (category : list string) (product_name : list cell) :
  session secret entries new_session = Some st ->
  (forall w, In w entries -> w <> secret) ->
  exists elements,
    script st inventory sales start_date end_date category product_name
    = Locked elements /\ In (text_input "Password") elements.
Proof.
  intros Hs Hall.
  assert (Hlocked : Session.password_correct st <> Some true).
  { destruct entries as [|e entries _] using rev_ind.
    - unfold session in Hs. simpl in Hs. inversion Hs. discriminate.
    - rewrite session_app in Hs.
      destruct (session secret entries new_session) as [st'|]; [|discriminate].
      destruct (fst (check_password st')) eqn:Elocked; [discriminate|].
      inversion Hs as [Hst]. unfold submit.
      destruct (String.eqb e (fillna "" (Session.password st'))).
      + intros E. unfold check_password in Elocked. rewrite E in Elocked.
        discriminate.
      + unfold password_entered. simpl.
        destruct (String.eqb_spec e secret) as [E|_].
        * exfalso. apply (Hall e); [apply in_or_app; right; now left | exact E].
        * discriminate. }
  unfold script, check_password.
  destruct (Session.password_correct st) as [[|]|].
  - now elim Hlocked.
  - eexists. split; [reflexivity | now left].
  - eexists. split; [reflexivity | now left].
Qed.

End ScriptProperties.

(** X1 at two wrong submissions followed by the secret. *)
Lemma gate_follows_last_submission_witness :
  check_password
    {| Session.password := None; Session.password_correct := Some true |}
  = (true, []).
Proof.
  refine (proj2 (gate_follows_last_submission "pine" ["oak"; ""; "pine"]
                   _ _ eq_refl)).
  discriminate.
Defined.

(** X2 after one wrong submission. *)
Lemma secret_not_kept_in_session_witness :
  Session.password
    {| Session.password := Some "oak"; Session.password_correct := Some false |}
  <> Some "pine".
Proof.
  refine (secret_not_kept_in_session "pine" ["oak"] _ _ eq_refl).
  discriminate.
Defined.

(** X3 after two wrong submissions, on the sample sheets. *)
Lemma nothing_rendered_before_the_secret_witness :
  exists elements,
    script (P := plain_parsers)
      {| Session.password := Some "oak"; Session.password_correct := Some false |}
      sample_inventory sample_sales 19723 19754 ["Speakers"] [Some "Cone 12"]
    = Locked elements /\ In (text_input "Password") elements.
Proof.
  apply (@nothing_rendered_before_the_secret plain_parsers "pine" ["elm"; "oak"]).
  - reflexivity.
  - intros w [<-|[<-|[]]]; discriminate.
Defined.

(* ================================================================== *)
(** * Properties: what loading raises *)

Section Loading.

Context {P : Parsers}.

(** X4.  The column checks come first: a missing inventory column is
    reported as such even when the sales sheet is incomplete too, a
    missing sales column when the inventory header is complete.  For
    headers that do not clash: without a 'Total Sale' column the load
    raises KeyError 'Revenue' although the checks pass; and when the
    three text columns hold text, the load succeeds exactly when every
    required column of both sheets and the 'Total Sale' column are in
    the headers, wherever they stand. *)
Theorem load_succeeds_iff_columns_present
  (inventory : InvSheet.t) (sales : SalesSheet.t) :
  (~ incl REQUIRED_INVENTORY_COLS (InvSheet.columns inventory) ->
   load_data_from_gsheet inventory sales
   = inl (ValueError "Inventory sheet is missing required columns.")) /\
  (incl REQUIRED_INVENTORY_COLS (InvSheet.columns inventory) ->
   ~ incl REQUIRED_SALES_COLS (SalesSheet.columns sales) ->
   load_data_from_gsheet inventory sales
   = inl (ValueError "Sales sheet is missing required columns.")) /\
  (plain_headers inventory sales = true ->
   incl REQUIRED_INVENTORY_COLS (InvSheet.columns inventory) ->
   incl REQUIRED_SALES_COLS (SalesSheet.columns sales) ->
   ~ In "Total Sale" (SalesSheet.columns sales) ->
   load_data_from_gsheet inventory sales = inl (KeyError "Revenue")) /\
  (plain_headers inventory sales = true ->
   holds_text (map InvSheet.Category (InvSheet.rows inventory)) = true ->
   holds_text (map SalesSheet.Payment_Method (SalesSheet.rows sales)) = true ->
   holds_text (map SalesSheet.Installer_Referral (SalesSheet.rows sales)) = true ->
   ((exists frames, load_data_from_gsheet inventory sales = inr frames) <->
    incl REQUIRED_INVENTORY_COLS (InvSheet.columns inventory) /\
    incl REQUIRED_SALES_COLS (SalesSheet.columns sales) /\
    In "Total Sale" (SalesSheet.columns sales))).
Proof.
  pose proof (required_columns_incl REQUIRED_INVENTORY_COLS
                (InvSheet.columns inventory)) as Hi.
  pose proof (required_columns_incl REQUIRED_SALES_COLS
                (SalesSheet.columns sales)) as Hs.
  pose proof (has_column_in "Total Sale" (SalesSheet.columns sales)) as Ht.
  assert (Hrev : plain_headers inventory sales = true ->
                 has_column "Total Sale" (SalesSheet.columns sales) = false ->
                 revenue_error inventory sales = Some (KeyError "Revenue")).
  { intros Hp Hno. unfold revenue_error, from_sales.
    now rewrite Hno, (plain_headers_no_revenue _ _ Hp). }
  split; [|split; [|split]].
  - intros Hn. unfold load_data_from_gsheet.
    destruct (forallb (fun col => has_column col (InvSheet.columns inventory))
                REQUIRED_INVENTORY_COLS); [|reflexivity].
    elim Hn. now apply Hi.
  - intros Hinv Hn. unfold load_data_from_gsheet.
    rewrite (proj2 Hi Hinv). cbn [negb].
    destruct (forallb (fun col => has_column col (SalesSheet.columns sales))
                REQUIRED_SALES_COLS); [|reflexivity].
    elim Hn. now apply Hs.
  - intros Hp Hinv Hsal Hn. unfold load_data_from_gsheet.
    rewrite (proj2 Hi Hinv), (proj2 Hs Hsal). cbn [negb].
    rewrite Hrev; [reflexivity | exact Hp|].
    destruct (has_column "Total Sale" (SalesSheet.columns sales)); [|reflexivity].
    elim Hn. now apply Ht.
  - intros Hp Hc Hpay Hinst. split.
    + intros [[df_inventory df_merged] Hload].
      unfold load_data_from_gsheet in Hload.
      destruct (forallb (fun col => has_column col (InvSheet.columns inventory))
                  REQUIRED_INVENTORY_COLS) eqn:Ei; [|discriminate].
      destruct (forallb (fun col => has_column col (SalesSheet.columns sales))
                  REQUIRED_SALES_COLS) eqn:Es; [|discriminate].
      cbn [negb] in Hload.
      split; [now apply Hi|]. split; [now apply Hs|].
      destruct (has_column "Total Sale" (SalesSheet.columns sales)) eqn:Et;
        [now apply Ht|].
      rewrite (Hrev Hp eq_refl) in Hload. discriminate.
    + intros (Hinv & Hsal & Hts). eexists. apply load_plain; try assumption.
      * unfold validated. now rewrite (proj2 Hi Hinv), (proj2 Hs Hsal).
      * now apply Ht.
Qed.

End Loading.

(* ================================================================== *)
(** * Properties: normalization and the join *)

Lemma lstrip_head (s : string) :
  lstrip s = EmptyString \/
  exists c t, lstrip s = String c t /\ isspace c = false.
Proof.
  induction s as [|c s IH]; simpl; [now left|].
  destruct (isspace c) eqn:E; [exact IH|].
  right. exists c, s. split; [reflexivity | exact E].
Qed.

Lemma rstrip_head (c : ascii) (t : string) :
  isspace c = false -> exists t', rstrip (String c t) = String c t'.
Proof.
  intros E. simpl. destruct (rstrip t).
  - rewrite E. now exists EmptyString.
  - eexists. reflexivity.
Qed.

Lemma rstrip_idempotent (s : string) : rstrip (rstrip s) = rstrip s.
Proof.
  induction s as [|c s IH]; simpl; [reflexivity|].
  destruct (rstrip s) as [|c' t] eqn:E.
  - destruct (isspace c) eqn:Ec; simpl; [reflexivity|]. now rewrite Ec.
  - change (rstrip (String c (String c' t))) with
      (match rstrip (String c' t) with
       | EmptyString => if isspace c then EmptyString else String c EmptyString
       | u => String c u
       end).
    now rewrite IH.
Qed.

Lemma strip_idempotent (s : string) : strip (strip s) = strip s.
Proof.
  unfold strip.
  destruct (lstrip_head s) as [->|(c & t & -> & Ec)]; [reflexivity|].
  destruct (rstrip_head c t Ec) as [t' Et].
  rewrite Et. simpl lstrip. rewrite Ec, <- Et. apply rstrip_idempotent.
Qed.

Lemma length_keep {A B : Type} (f : A -> option B) (l : list A) :
  (List.length (keep f l) <= List.length l)%nat.
Proof.
  induction l as [|a l IH]; simpl; [lia|].
  destruct (f a); simpl; lia.
Qed.

Lemma keep_map {A B C : Type} (f : A -> option B) (g : B -> C) (l : list A) :
  map g (keep f l) = keep (fun a => option_map g (f a)) l.
Proof.
  induction l as [|a l IH]; simpl; [reflexivity|].
  destruct (f a); simpl; now rewrite IH.
Qed.

Lemma merge_app {L R : Type} (lkey : L -> string) (rkey : R -> string)
  (left1 left2 : list L) (right : list R) :
  merge lkey rkey (left1 ++ left2) right
  = merge lkey rkey left1 right ++ merge lkey rkey left2 right.
Proof. unfold merge. apply flat_map_app. Qed.

(** X5.  A duplicated key on the right multiplies the left rows that carry
    it: the left join has, for each left row, one row per right row with
    its key, and one row when there is none.  No left row is dropped. *)
Theorem left_join_fans_out {L R : Type} (lkey : L -> string) (rkey : R -> string)
  (left : list L) (right : list R) :
  List.length (merge lkey rkey left right)
  = list_sum (map (fun l => Nat.max 1 (List.length (matching rkey (lkey l) right)))
                left) /\
  (List.length left <= List.length (merge lkey rkey left right))%nat /\
  (forall l, In l left -> exists o, In (l, o) (merge lkey rkey left right)) /\
  (forall l r, In l left -> In r right -> rkey r = lkey l ->
               In (l, Some r) (merge lkey rkey left right)).
Proof.
  assert (Hlen : List.length (merge lkey rkey left right)
                 = list_sum (map (fun l => Nat.max 1
                                   (List.length (matching rkey (lkey l) right)))
                               left)).
  { induction left as [|l left IH]; [reflexivity|].
    rewrite merge_cons, length_app, IH. cbn [map list_sum fold_right]. f_equal.
    destruct (matching rkey (lkey l) right) as [|m ms]; [reflexivity|].
    simpl. now rewrite length_map. }
  split; [exact Hlen|]. split; [|split].
  - rewrite Hlen. clear Hlen.
    unfold list_sum.
    induction left as [|l left IH]; cbn [map fold_right List.length]; lia.
  - intros l Hl.
    destruct (matching rkey (lkey l) right) as [|m ms] eqn:E.
    + exists None. unfold merge. apply in_flat_map. exists l.
      split; [exact Hl|]. rewrite E. now left.
    + exists (Some m). apply in_merge; [exact Hl | |].
      * assert (Hm : In m (matching rkey (lkey l) right)) by (rewrite E; now left).
        unfold matching in Hm. now apply filter_In in Hm.
      * assert (Hm : In m (matching rkey (lkey l) right)) by (rewrite E; now left).
        unfold matching in Hm. apply filter_In in Hm as [_ Hm].
        now apply String.eqb_eq.
  - intros l r. apply in_merge.
Qed.

Section Normalization.

Context {P : Parsers}.

(** X6.  When the identifier column of the inventory sheet holds text, the
    inventory frame has one row per sheet row with an identifier, in
    sheet order, and never more rows than the sheet; its identifiers
    are the trimmed identifiers of those rows. *)
Theorem inventory_rows_kept
  (inventory : InvSheet.t) (sales : SalesSheet.t)
  (df_inventory : list Inv.row) (df_merged : list Merged.row) :
  load_data_from_gsheet inventory sales = inr (df_inventory, df_merged) ->
  holds_text (map InvSheet.Item_ID (InvSheet.rows inventory)) = true ->
  map Inv.Item_ID df_inventory
  = map strip (keep InvSheet.Item_ID (InvSheet.rows inventory)) /\
  (List.length df_inventory <= List.length (InvSheet.rows inventory))%nat /\
  ((forall r, In r (InvSheet.rows inventory) -> InvSheet.Item_ID r <> None) ->
   List.length df_inventory = List.length (InvSheet.rows inventory)).
Proof.
  intros Hload _. apply load_success in Hload as [-> _].
  split; [|split].
  - rewrite !keep_map. induction (InvSheet.rows inventory) as [|r l IH];
      [reflexivity|].
    simpl. unfold normalize_inventory at 1.
    destruct (InvSheet.Item_ID r); simpl; now rewrite IH.
  - apply length_keep.
  - induction (InvSheet.rows inventory) as [|r l IH]; intros Hall; [reflexivity|].
    simpl. unfold normalize_inventory at 1.
    destruct (InvSheet.Item_ID r) eqn:E.
    + simpl. f_equal. apply IH. intros r' Hr'. apply Hall. now right.
    + exfalso. apply (Hall r); [now left | exact E].
Qed.

(** X7.  Loading leaves nothing to trim: the identifiers of both frames and
    the categories of the merged frame are their own trimmed form. *)
Theorem loaded_text_is_trimmed
  (inventory : InvSheet.t) (sales : SalesSheet.t)
  (df_inventory : list Inv.row) (df_merged : list Merged.row) :
  load_data_from_gsheet inventory sales = inr (df_inventory, df_merged) ->
  (forall i, In i df_inventory -> strip (Inv.Item_ID i) = Inv.Item_ID i) /\
  (forall r, In r df_merged ->
     strip (Merged.Item_ID r) = Merged.Item_ID r /\
     strip (Merged.Category r) = Merged.Category r /\
     str_strip (Merged.Payment_Method r) = Merged.Payment_Method r /\
     str_strip (Merged.Installer_Referral r) = Merged.Installer_Referral r).
Proof.
  intros Hload. apply load_success in Hload as [-> ->]. split.
  - intros i Hi. apply keep_in in Hi as (r & _ & Hr).
    unfold normalize_inventory in Hr.
    destruct (InvSheet.Item_ID r); [|discriminate].
    inversion Hr. simpl. apply strip_idempotent.
  - intros r Hr. apply in_map_iff in Hr as ([s oi] & <- & Hin).
    apply merge_left_in in Hin. apply keep_in in Hin as (rs & _ & Hn).
    unfold normalize_sale in Hn.
    destruct (to_datetime (SalesSheet.Date rs)); [|discriminate].
    destruct (SalesSheet.Item_ID_Product rs); [|discriminate].
    inversion Hn. simpl. repeat split.
    + apply strip_idempotent.
    + apply strip_idempotent.
    + destruct (SalesSheet.Payment_Method rs); simpl; [|reflexivity].
      now rewrite strip_idempotent.
    + destruct (SalesSheet.Installer_Referral rs); simpl; [|reflexivity].
      now rewrite strip_idempotent.
Qed.

(** The sales row that line 66 reads the revenue from has the
    identifier and the date of the sheet's row. *)
Lemma in_revenue_rows (inventory : InvSheet.t) (sales : SalesSheet.t)
  (rs : SalesSheet.row) (s : Sales.row) :
  In rs (SalesSheet.rows sales) -> normalize_sale rs = Some s ->
  exists s', In s' (keep normalize_sale (revenue_rows inventory sales)) /\
             Sales.Item_ID s' = Sales.Item_ID s /\
             Sales.Sale_Date s' = Sales.Sale_Date s.
Proof.
  intros Hrs Hn. unfold revenue_rows.
  destruct (from_sales "Total Sale" inventory sales).
  - exists s. split; [now apply in_keep with rs | split; reflexivity].
  - eexists. split.
    + apply in_keep with (revenue_row rs); [now apply in_map|].
      rewrite normalize_revenue_row, Hn. reflexivity.
    + split; reflexivity.
Qed.

(** X8.  When the identifier columns of both sheets and the category
    column hold text, white space around an identifier never prevents a
    match: a sales row with a valid date and an inventory row whose
    identifiers are equal once trimmed are joined in the merged frame,
    with the category and product of the inventory row. *)
Theorem identifiers_match_after_trimming
  (inventory : InvSheet.t) (sales : SalesSheet.t)
  (df_inventory : list Inv.row) (df_merged : list Merged.row)
  (ri : InvSheet.row) (rs : SalesSheet.row) (id_i id_s : string) (d : Z) :
  load_data_from_gsheet inventory sales = inr (df_inventory, df_merged) ->
  holds_text (map InvSheet.Item_ID (InvSheet.rows inventory)) = true ->
  holds_text (map SalesSheet.Item_ID_Product (SalesSheet.rows sales)) = true ->
  holds_text (map InvSheet.Category (InvSheet.rows inventory)) = true ->
  In ri (InvSheet.rows inventory) -> In rs (SalesSheet.rows sales) ->
  InvSheet.Item_ID ri = Some id_i ->
  SalesSheet.Item_ID_Product rs = Some id_s ->
  to_datetime (SalesSheet.Date rs) = Some d ->
  strip id_i = strip id_s ->
  exists r, In r df_merged /\
    Merged.Item_ID r = strip id_s /\ Merged.Sale_Date r = d /\
    Merged.Category r = strip (fillna "Unknown" (InvSheet.Category ri)) /\
    Merged.Product_Name_Model r = InvSheet.Product_Name_Model ri.
Proof.
  intros Hload _ _ _ Hri Hrs Hi Hs Hd Heq.
  apply load_success in Hload as [-> ->].
  destruct (normalize_inventory ri) as [i|] eqn:Ei;
    [|unfold normalize_inventory in Ei; rewrite Hi in Ei; discriminate].
  destruct (normalize_sale rs) as [s|] eqn:Es;
    [|unfold normalize_sale in Es; rewrite Hs, Hd in Es; discriminate].
  destruct (in_revenue_rows inventory sales rs s Hrs Es) as (s' & Hs' & Eid & Edate).
  exists (finish (s', Some i)).
  unfold normalize_inventory in Ei. rewrite Hi in Ei.
  injection Ei as Ei. subst i.
  unfold normalize_sale in Es. rewrite Hs, Hd in Es.
  injection Es as Es. subst s.
  simpl in Eid, Edate. split.
  - apply in_map. apply in_merge.
    + exact Hs'.
    + apply in_keep with ri; [exact Hri|].
      unfold normalize_inventory. now rewrite Hi.
    + simpl. now rewrite Eid.
  - simpl. rewrite Eid, Edate. repeat split; reflexivity.
Qed.

(** X9.  A sale whose identifier is in no inventory row is kept, once, with
    the category "Unknown" and no product name, prices or stock. *)
Theorem orphan_sale_kept_unknown
  (S1 S2 : list Sales.row) (s : Sales.row) (I : list Inv.row) :
  ~ In (Sales.Item_ID s) (map Inv.Item_ID I) ->
  map finish (merge Sales.Item_ID Inv.Item_ID (S1 ++ s :: S2) I)
  = map finish (merge Sales.Item_ID Inv.Item_ID S1 I)
    ++ finish (s, None) :: map finish (merge Sales.Item_ID Inv.Item_ID S2 I) /\
  Merged.Category (finish (s, None)) = "Unknown" /\
  Merged.Product_Name_Model (finish (s, None)) = None /\
  Merged.Supplier_Price (finish (s, None)) = None /\
  Merged.Selling_Price (finish (s, None)) = None /\
  Merged.Balance_Stock (finish (s, None)) = None /\
  Merged.Profit (finish (s, None)) = Sales.Profit s.
Proof.
  intros Hn. split; [|repeat split; reflexivity].
  rewrite merge_app, merge_cons, map_app.
  rewrite (matching_none Inv.Item_ID (Sales.Item_ID s) I Hn). reflexivity.
Qed.

(** X10.  An inventory row whose stock field is empty or not a number counts
    as stock 0: it is listed as low on stock and adds nothing to either
    stock value. *)
Theorem unreadable_stock_is_low_stock
  (ri : InvSheet.row) (i : Inv.row) :
  normalize_inventory ri = Some i ->
  to_numeric (InvSheet.Balance_Stock ri) = None ->
  Inv.Balance_Stock i = 0%Q /\
  (forall df_inventory, In i df_inventory -> In i (low_stock_items df_inventory)) /\
  (Inv.Balance_Stock i * Inv.Supplier_Price i == 0)%Q /\
  (Inv.Balance_Stock i * Inv.Selling_Price i == 0)%Q.
Proof.
  intros Hn Hs. unfold normalize_inventory in Hn.
  destruct (InvSheet.Item_ID ri); [|discriminate].
  inversion Hn. simpl. rewrite Hs. simpl.
  split; [reflexivity|]. split; [|split].
  - intros df Hin. unfold low_stock_items. apply filter_In.
    split; [exact Hin | reflexivity].
  - apply Qmult_0_l.
  - apply Qmult_0_l.
Qed.

End Normalization.

(** X6 at [spaced_inventory]: the row without identifier is gone. *)
Lemma inventory_rows_kept_witness :
  map Inv.Item_ID (fst spaced_frames) = ["A1"; "B2"].
Proof.
  exact (proj1 (@inventory_rows_kept plain_parsers spaced_inventory spaced_sales
                  (fst spaced_frames) (snd spaced_frames) eq_refl eq_refl)).
Defined.

(** X7 at the frames loaded from [spaced_inventory] and [spaced_sales]. *)
Lemma loaded_text_is_trimmed_witness :
  Forall (fun i => strip (Inv.Item_ID i) = Inv.Item_ID i) (fst spaced_frames).
Proof.
  apply Forall_forall.
  exact (proj1 (@loaded_text_is_trimmed plain_parsers spaced_inventory spaced_sales
                  (fst spaced_frames) (snd spaced_frames) eq_refl)).
Defined.

(** X8 at the identifiers " A1" and "A1 " of the same sheets. *)
Lemma identifiers_match_after_trimming_witness :
  exists r, In r (snd spaced_frames) /\
    Merged.Item_ID r = "A1" /\ Merged.Sale_Date r = 19732 * DAY /\
    Merged.Category r = "Speakers" /\
    Merged.Product_Name_Model r = Some "Cone 12".
Proof.
  refine (@identifiers_match_after_trimming plain_parsers
            spaced_inventory spaced_sales (fst spaced_frames) (snd spaced_frames)
            (inventory_row (Some " A1") (Some " Speakers ") (Some "Cone 12")
               (Some "1000") (Some "1500") (Some "3"))
            (sales_row (Some "A1 ") (Some "2") (Some "2024-01-10") (Some "500")
               (Some " Cash") (Some "Bob") (Some "3000") (Some "Ann"))
            " A1" "A1 " (19732 * DAY) eq_refl eq_refl eq_refl eq_refl
            _ _ eq_refl eq_refl eq_refl eq_refl).
  - now left.
  - now left.
Defined.

(** X9 at a sale of A1 against an inventory that holds B2 only. *)
Lemma orphan_sale_kept_unknown_witness :
  Merged.Category (finish (P := plain_parsers) (sale_payment_missing, None))
  = "Unknown".
Proof.
  refine (proj1 (proj2 (@orphan_sale_kept_unknown plain_parsers [] []
                          sale_payment_missing [stock_row "B2"] _))).
  simpl. intros [H|[]]. discriminate.
Defined.

(** X10 at a row whose stock field reads n/a. *)
Lemma unreadable_stock_is_low_stock_witness :
  Inv.Balance_Stock
    {| Inv.Item_ID := "B2"; Inv.Category := None;
       Inv.Product_Name_Model := Some "Amp 4ch";
       Inv.Supplier_Price := inject_Z 9000; Inv.Selling_Price := inject_Z 12000;
       Inv.Balance_Stock := 0%Q |} = 0%Q.
Proof.
  exact (proj1 (@unreadable_stock_is_low_stock plain_parsers
                  (inventory_row (Some "B2") None (Some "Amp 4ch")
                     (Some "9000") (Some "12000") (Some "n/a"))
                  _ eq_refl eq_refl)).
Defined.

(* ================================================================== *)
(** * Properties: sidebar widgets *)

Lemma filter_all {A : Type} (f : A -> bool) (l : list A) :
  (forall x, In x l -> f x = true) -> filter f l = l.
Proof.
  induction l as [|a l IH]; simpl; intros H; [reflexivity|].
  rewrite (H a) by now left. f_equal. apply IH. intros x Hx. apply H. now right.
Qed.

Lemma in_unique {A : Type} (eqb : A -> A -> bool) (l : list A) (x : A) :
  (forall a b, eqb a b = true <-> a = b) ->
  (In x (unique eqb l) <-> In x l).
Proof.
  intros Heq. induction l as [|a l IH]; simpl; [reflexivity|].
  rewrite filter_In, IH. split.
  - intros [E|[H _]]; auto.
  - intros [E|H]; [now left|].
    destruct (eqb x a) eqn:E.
    + left. symmetry. now apply Heq.
    + right. split; [exact H | reflexivity].
Qed.

Lemma unique_nodup {A : Type} (eqb : A -> A -> bool) (l : list A) :
  (forall a b, eqb a b = true <-> a = b) -> NoDup (unique eqb l).
Proof.
  intros Heq. induction l as [|a l IH]; simpl; constructor.
  - rewrite filter_In. intros [_ H].
    rewrite (proj2 (Heq a a) eq_refl) in H. discriminate.
  - now apply NoDup_filter.
Qed.

Lemma date_monotone (a b : Z) : a <= b -> date a <= date b.
Proof. intros H. unfold date. apply Z.div_le_mono; [reflexivity | exact H]. Qed.

Lemma in_df_filtered
  (df_sales_merged : list Merged.row) (start_date end_date : Z)
  (category : list string) (product_name : list cell) (r : Merged.row) :
  In r (df_filtered df_sales_merged start_date end_date category product_name)
  <-> In r df_sales_merged /\
      start_date <= date (Merged.Sale_Date r) <= end_date /\
      In (Merged.Category r) category /\
      In (Merged.Product_Name_Model r) product_name.
Proof.
  unfold df_filtered, df_cat_filtered, df_date_filtered.
  rewrite !filter_In, andb_true_iff, isin_string, isin_cell, !Z.leb_le. tauto.
Qed.

(** X11.  With the sidebar untouched the filters let every record through:
    the default date range, category selection and product selection
    (all the options, which the script computes from the frame itself)
    give back the merged frame, rows without product name included. *)
Theorem default_filters_keep_every_record
  (df_sales_merged : list Merged.row) (start_date end_date : Z) :
  date_bounds df_sales_merged = Some (start_date, end_date) ->
  let category := category_options df_sales_merged start_date end_date in
  let product_name :=
    product_options df_sales_merged start_date end_date category in
  df_filtered df_sales_merged start_date end_date category product_name
  = df_sales_merged.
Proof.
  unfold date_bounds.
  destruct (min_date (map Merged.Sale_Date df_sales_merged)) as [lo|] eqn:Elo;
    [|discriminate].
  destruct (max_date (map Merged.Sale_Date df_sales_merged)) as [hi|] eqn:Ehi;
    [|discriminate].
  intros H. cbv zeta. inversion H. subst start_date end_date. clear H.
  destruct (min_date_spec _ lo Elo) as [_ Hlo].
  destruct (max_date_spec _ hi Ehi) as [_ Hhi].
  set (category := category_options df_sales_merged (date lo) (date hi)).
  set (product_name :=
         product_options df_sales_merged (date lo) (date hi) category).
  assert (Hd : df_date_filtered df_sales_merged (date lo) (date hi)
               = df_sales_merged).
  { unfold df_date_filtered. apply filter_all. intros r Hr.
    assert (Hin : In (Merged.Sale_Date r) (map Merged.Sale_Date df_sales_merged))
      by now apply in_map.
    apply andb_true_iff. split; apply Z.leb_le; apply date_monotone; auto. }
  assert (Hc : df_cat_filtered df_sales_merged (date lo) (date hi) category
               = df_sales_merged).
  { unfold df_cat_filtered, category, category_options. rewrite Hd.
    apply filter_all. intros r Hr. apply isin_string.
    apply in_unique; [intros a b; apply String.eqb_eq | now apply in_map]. }
  unfold df_filtered, product_name, product_options. rewrite Hc.
  apply filter_all. intros r Hr. apply isin_cell.
  apply in_unique; [apply cell_eqb_eq | now apply in_map].
Qed.

(** X12.  The widgets cascade: the categories offered are those of the
    records in the date range, the products offered are those of the
    records in the date range and the selected categories, and no option
    is offered twice. *)
Theorem options_cascade
  (df_sales_merged : list Merged.row) (start_date end_date : Z)
  (category : list string) :
  (forall c, In c (category_options df_sales_merged start_date end_date) <->
     exists r, In r df_sales_merged /\
       start_date <= date (Merged.Sale_Date r) <= end_date /\
       Merged.Category r = c) /\
  (forall p, In p (product_options df_sales_merged start_date end_date category) <->
     exists r, In r df_sales_merged /\
       start_date <= date (Merged.Sale_Date r) <= end_date /\
       In (Merged.Category r) category /\
       Merged.Product_Name_Model r = p) /\
  NoDup (category_options df_sales_merged start_date end_date) /\
  NoDup (product_options df_sales_merged start_date end_date category).
Proof.
  split; [|split; [|split]].
  - intros c. unfold category_options.
    rewrite in_unique by (intros a b; apply String.eqb_eq).
    rewrite in_map_iff. unfold df_date_filtered. split.
    + intros (r & E & Hr). apply filter_In in Hr as [Hr Hd].
      apply andb_true_iff in Hd as [H1 H2].
      apply Z.leb_le in H1. apply Z.leb_le in H2.
      exists r. auto.
    + intros (r & Hr & [H1 H2] & E). exists r. split; [exact E|].
      apply filter_In. split; [exact Hr|].
      apply andb_true_iff. split; now apply Z.leb_le.
  - intros p. unfold product_options.
    rewrite in_unique by apply cell_eqb_eq.
    rewrite in_map_iff. unfold df_cat_filtered, df_date_filtered. split.
    + intros (r & E & Hr). apply filter_In in Hr as [Hr Hc].
      apply filter_In in Hr as [Hr Hd].
      apply andb_true_iff in Hd as [H1 H2].
      apply Z.leb_le in H1. apply Z.leb_le in H2. apply isin_string in Hc.
      exists r. auto.
    + intros (r & Hr & [H1 H2] & Hc & E). exists r. split; [exact E|].
      apply filter_In. split; [|now apply isin_string].
      apply filter_In. split; [exact Hr|].
      apply andb_true_iff. split; now apply Z.leb_le.
  - apply unique_nodup. intros a b. apply String.eqb_eq.
  - apply unique_nodup. apply cell_eqb_eq.
Qed.

(** X13.  Narrowing a selection only removes records: whatever passes with
    the selections [category], [product_name] passes with any larger
    ones, and an empty selection, or a date range that ends before it
    starts, lets nothing through. *)
Theorem selections_only_narrow
  (df_sales_merged : list Merged.row) (start_date end_date : Z)
  (category category' : list string) (product_name product_name' : list cell) :
  (incl category category' -> incl product_name product_name' ->
   incl (df_filtered df_sales_merged start_date end_date category product_name)
        (df_filtered df_sales_merged start_date end_date category' product_name')) /\
  df_filtered df_sales_merged start_date end_date [] product_name = [] /\
  df_filtered df_sales_merged start_date end_date category [] = [] /\
  (end_date < start_date ->
   df_filtered df_sales_merged start_date end_date category product_name = []).
Proof.
  split; [|split; [|split]].
  - intros Hc Hp r Hr.
    apply in_df_filtered in Hr as (H1 & H2 & H3 & H4).
    apply in_df_filtered. auto.
  - unfold df_filtered, df_cat_filtered.
    rewrite (filter_none _ (df_date_filtered df_sales_merged start_date end_date));
      [reflexivity | reflexivity].
  - unfold df_filtered. now apply filter_none.
  - intros Hlt. unfold df_filtered, df_cat_filtered, df_date_filtered.
    rewrite (filter_none _ df_sales_merged); [reflexivity|].
    intros r _. apply andb_false_iff.
    destruct (Z.leb_spec start_date (date (Merged.Sale_Date r)));
      destruct (Z.leb_spec (date (Merged.Sale_Date r)) end_date); auto; lia.
Qed.

(** X11 at [gap_rows], whose dates run from 2024-01-01 to 2024-01-15. *)
Lemma default_filters_keep_every_record_witness :
  df_filtered gap_rows 19723 19737
    (category_options gap_rows 19723 19737)
    (product_options gap_rows 19723 19737 (category_options gap_rows 19723 19737))
  = gap_rows.
Proof.
  exact (default_filters_keep_every_record gap_rows 19723 19737 eq_refl).
Defined.

(* ================================================================== *)
(** * Properties: charts and rankings *)

Lemma ascending_keys_nodup {A : Type} (groups : list (string * A)) :
  ascending groups -> NoDup (map fst groups).
Proof.
  induction 1 as [|[k a] rest Hs IH Hall]; simpl; constructor; [|exact IH].
  intros Hin. apply in_map_iff in Hin as ([k' a'] & E & Hin). simpl in E. subst k'.
  rewrite Forall_forall in Hall. specialize (Hall _ Hin).
  unfold key_lt in Hall. simpl in Hall. now apply (compare_lt_neq k k).
Qed.

(** X14.  The payment chart has one bar per payment method that occurs
    in the filtered records, in ascending order of the method's text;
    records without a payment method get no bar, and a method of the
    empty text gets its own. *)
Theorem profit_by_payment_bars (df : list Merged.row) :
  ascending (profit_by_payment df) /\
  NoDup (map fst (profit_by_payment df)) /\
  (forall k, In k (map fst (profit_by_payment df)) <->
             exists r, In r df /\ Merged.Payment_Method r = Some k).
Proof.
  unfold profit_by_payment.
  pose proof (groupby_ascending _ _ _ Merged.Payment_Method Merged.Profit
                (Qplus 0) Qplus df) as Hs.
  split; [exact Hs|]. split; [now apply ascending_keys_nodup|].
  intros k. rewrite in_map_iff. split.
  - intros ([k' v] & E & Hin). simpl in E. subst k'.
    now apply in_groupby_sum in Hin as [Hr _].
  - intros Hr. eexists (k, _). split; [reflexivity|].
    apply in_groupby_sum. split; [exact Hr | reflexivity].
Qed.

Lemma Qle_bool_total (a b : Q) : Qle_bool a b = false -> Qle_bool b a = true.
Proof.
  intros H. apply Qle_bool_iff.
  destruct (Qlt_le_dec b a) as [Hlt|Hle].
  - now apply Qlt_le_weak.
  - apply Qle_bool_iff in Hle. congruence.
Qed.

Lemma by_value_trans (ascending : bool) (a b c : string * Q) :
  by_value ascending a b -> by_value ascending b c -> by_value ascending a c.
Proof.
  unfold by_value. destruct ascending; intros H1 H2.
  - now apply Qle_trans with (snd b).
  - now apply Qle_trans with (snd b).
Qed.

Lemma sort_values_perm (ascending : bool) (s : list (string * Q)) :
  Permutation (sort_values ascending s) s.
Proof.
  unfold sort_values. induction s as [|x s IH]; simpl; [constructor|].
  set (le := fun a b : string * Q =>
               if ascending then Qle_bool (snd a) (snd b)
               else Qle_bool (snd b) (snd a)) in *.
  assert (Hins : forall l, Permutation (insert_by le x l) (x :: l)).
  { induction l as [|y l IHl]; simpl; [reflexivity|].
    destruct (le x y); [reflexivity|].
    rewrite IHl. apply perm_swap. }
  rewrite Hins. now constructor.
Qed.

Lemma sort_values_sorted (ascending : bool) (s : list (string * Q)) :
  StronglySorted (by_value ascending) (sort_values ascending s).
Proof.
  apply Sorted_StronglySorted.
  { intros a b c. apply by_value_trans. }
  unfold sort_values. induction s as [|x s IH]; simpl; [constructor|].
  set (le := fun a b : string * Q =>
               if ascending then Qle_bool (snd a) (snd b)
               else Qle_bool (snd b) (snd a)) in *.
  assert (Hle : forall a b, le a b = true -> by_value ascending a b).
  { intros a b. unfold le, by_value. destruct ascending; apply Qle_bool_iff. }
  assert (Hgt : forall a b, le a b = false -> by_value ascending b a).
  { intros a b. unfold le, by_value. destruct ascending; intros H;
      apply Qle_bool_iff; now apply Qle_bool_total. }
  assert (Hins : forall l, Sorted (by_value ascending) l ->
                           Sorted (by_value ascending) (insert_by le x l)).
  { induction l as [|y l IHl]; intros Hl; simpl.
    - repeat constructor.
    - destruct (le x y) eqn:E.
      + constructor; [exact Hl|]. constructor. now apply Hle.
      + inversion Hl as [|? ? Hl' Hhd]; subst.
        constructor; [now apply IHl|].
        destruct l as [|z l]; simpl.
        * constructor. now apply Hgt.
        * destruct (le x z); constructor; [now apply Hgt|].
          now inversion Hhd. }
  now apply Hins.
Qed.

Lemma sort_values_of_sorted (ascending : bool) (s : list (string * Q)) :
  Sorted (by_value ascending) s -> sort_values ascending s = s.
Proof.
  unfold sort_values. induction 1 as [|x s Hs IH Hhd]; simpl; [reflexivity|].
  rewrite IH. destruct Hhd as [|y s' Hxy]; simpl; [reflexivity|].
  unfold by_value in Hxy.
  destruct ascending; apply Qle_bool_iff in Hxy; now rewrite Hxy.
Qed.

(** X15.  The installer chart is the same groups as the group-by, reordered
    by ascending profit: it is sorted by value and has each installer or
    referral that occurs in the filtered records once. *)
Theorem profit_by_installer_sorted (df : list Merged.row) :
  StronglySorted (by_value true) (profit_by_installer df) /\
  Permutation (profit_by_installer df)
    (groupby_sum Merged.Installer_Referral Merged.Profit df) /\
  NoDup (map fst (profit_by_installer df)) /\
  (forall k, In k (map fst (profit_by_installer df)) <->
             exists r, In r df /\ Merged.Installer_Referral r = Some k).
Proof.
  unfold profit_by_installer.
  pose proof (sort_values_perm true
                (groupby_sum Merged.Installer_Referral Merged.Profit df)) as Hp.
  split; [apply sort_values_sorted|]. split; [exact Hp|]. split.
  - apply (Permutation_NoDup (l := map fst (groupby_sum Merged.Installer_Referral
                                              Merged.Profit df))).
    + apply Permutation_map. now symmetry.
    + apply ascending_keys_nodup. apply groupby_ascending.
  - intros k. rewrite in_map_iff. split.
    + intros ([k' v] & E & Hin). simpl in E. subst k'.
      apply in_sort_values in Hin.
      now apply in_groupby_sum in Hin as [Hr _].
    + intros Hr. eexists (k, _). split; [reflexivity|].
      apply in_sort_values. apply in_groupby_sum. split; [exact Hr | reflexivity].
Qed.

Lemma StronglySorted_app_inv {A : Type} (R : A -> A -> Prop) (l1 l2 : list A) :
  StronglySorted R (l1 ++ l2) ->
  StronglySorted R l1 /\ forall a b, In a l1 -> In b l2 -> R a b.
Proof.
  induction l1 as [|x l1 IH]; simpl; intros H.
  - split; [constructor | contradiction].
  - inversion H as [|? ? Hs Hall]; subst.
    destruct (IH Hs) as [H1 H2]. split.
    + constructor; [exact H1|].
      rewrite Forall_forall in *. intros y Hy. apply Hall.
      apply in_or_app. now left.
    + intros a b [<-|Ha] Hb.
      * rewrite Forall_forall in Hall. apply Hall. apply in_or_app. now right.
      * now apply H2.
Qed.

Lemma nlargest_top_of (n : nat) (groups : list (string * Q)) :
  top_of n groups (sort_values false (nlargest n groups)).
Proof.
  unfold nlargest.
  pose proof (sort_values_perm false groups) as Hperm.
  pose proof (sort_values_sorted false groups) as Hsorted.
  set (t := sort_values false groups) in *.
  rewrite <- (firstn_skipn n t) in Hsorted.
  apply StronglySorted_app_inv in Hsorted as [Hfirst Hcross].
  rewrite (sort_values_of_sorted false (firstn n t))
    by now apply StronglySorted_Sorted.
  split; [|split; [exact Hfirst|split]].
  - rewrite length_firstn. now rewrite (Permutation_length Hperm).
  - intros x Hx. apply (Permutation_in x Hperm).
    rewrite <- (firstn_skipn n t). apply in_or_app. now left.
  - intros x Hx. apply (Permutation_in x (Permutation_sym Hperm)) in Hx.
    rewrite <- (firstn_skipn n t) in Hx. apply in_app_or in Hx as [Hx|Hx].
    + now left.
    + right. intros y Hy. exact (Hcross y x Hy Hx).
Qed.

(** X16.  The three rankings list the 5 (products) or 10 (customers) largest
    group sums, largest first; with fewer groups they list them all and
    add nothing. *)
Theorem rankings_are_top_n (df : list Merged.row) :
  top_of 5 (groupby_sum Merged.Product_Name_Model Merged.Profit df)
    (top_products_by_profit df) /\
  top_of 5 (groupby_sum Merged.Product_Name_Model Merged.Quantity_Sold df)
    (top_products_by_quantity df) /\
  top_of 10 (groupby_sum Merged.Customer_Name Merged.Profit df)
    (top_customers_by_profit df) /\
  ((List.length (groupby_sum Merged.Product_Name_Model Merged.Profit df) <= 5)%nat ->
   Permutation (top_products_by_profit df)
     (groupby_sum Merged.Product_Name_Model Merged.Profit df)).
Proof.
  split; [apply nlargest_top_of|]. split; [apply nlargest_top_of|].
  split; [apply nlargest_top_of|].
  intros Hlen. unfold top_products_by_profit, nlargest.
  rewrite sort_values_perm.
  rewrite firstn_all2.
  - apply sort_values_perm.
  - now rewrite (Permutation_length (sort_values_perm false _)).
Qed.

(* ================================================================== *)
(** * Properties: the stock analysis *)

(** X18.  The stock analysis has exactly the inventory rows, in order, also
    when identifiers repeat in the inventory; a number of days since the
    last sale is never negative, an item sold at the latest timestamp of
    the data has 0 days and is not listed as slow-moving, and the
    slow-moving list is a selection of the analysis, in inventory order. *)
Theorem stock_analysis_covers_inventory
  (df_inventory : list Inv.row) (df_sales_merged : list Merged.row) :
  map fst (inventory_analysis df_inventory df_sales_merged) = df_inventory /\
  (forall i d, In (i, Days d) (inventory_analysis df_inventory df_sales_merged) ->
               0 <= d) /\
  (forall i r latest,
      In i df_inventory -> In r df_sales_merged ->
      Merged.Item_ID r = Inv.Item_ID i ->
      latest_date_in_data df_sales_merged = Some latest ->
      Merged.Sale_Date r = latest ->
      In (i, Days 0) (inventory_analysis df_inventory df_sales_merged) /\
      forall d, ~ In (i, d) (slow_moving df_inventory df_sales_merged)) /\
  map fst (slow_moving df_inventory df_sales_merged)
  = filter (fun i =>
              match max_date (sales_of (Inv.Item_ID i) df_sales_merged),
                    latest_date_in_data df_sales_merged with
              | Some last, Some latest => (latest - last) / DAY >? 90
              | _, _ => true
              end) df_inventory.
Proof.
  rewrite (inventory_analysis_rows df_inventory df_sales_merged).
  split; [|split; [|split]].
  - rewrite map_map. simpl. apply map_id.
  - intros i d Hin. apply in_map_iff in Hin as (i' & E & _).
    injection E as Ei Ed. subst i'.
    destruct (latest_date_in_data df_sales_merged) as [a|] eqn:Ea;
      destruct (max_date (sales_of (Inv.Item_ID i) df_sales_merged)) as [b|] eqn:Eb;
      simpl in Ed; try discriminate.
    injection Ed as Ed. subst d. destruct (max_date_spec _ b Eb) as [Hb _].
    destruct (sales_of_latest _ _ _ Hb) as (a' & Ea' & Hle).
    rewrite Ea in Ea'. inversion Ea'. subst a'.
    apply Z.div_pos; [lia | reflexivity].
  - intros i r latest Hi Hr Hid Hlatest Hdate.
    assert (Hin : In latest (sales_of (Inv.Item_ID i) df_sales_merged)).
    { unfold sales_of, values_of. apply in_map_iff. exists r.
      split; [exact Hdate|]. apply filter_In. split; [exact Hr|].
      simpl. rewrite Hid. apply String.eqb_refl. }
    destruct (max_date (sales_of (Inv.Item_ID i) df_sales_merged)) as [b|] eqn:Eb.
    2:{ apply max_date_none in Eb. rewrite Eb in Hin. contradiction. }
    destruct (max_date_spec _ b Eb) as [Hb Hmax].
    destruct (sales_of_latest _ _ _ Hb) as (a' & Ea' & Hle).
    rewrite Hlatest in Ea'. inversion Ea'. subst a'.
    assert (Hbl : b = latest) by (specialize (Hmax latest Hin); lia).
    subst b.
    assert (Hrow : In (i, Days 0)
                     (map (fun i0 =>
                             (i0, match latest_date_in_data df_sales_merged,
                                        max_date (sales_of (Inv.Item_ID i0)
                                                    df_sales_merged) with
                                  | Some a, Some b => Days ((a - b) / DAY)
                                  | _, _ => Never_Sold
                                  end)) df_inventory)).
    { apply in_map_iff. exists i. split; [|exact Hi].
      rewrite Hlatest, Eb, Z.sub_diag. reflexivity. }
    split; [exact Hrow|].
    intros d Hslow. unfold slow_moving in Hslow.
    rewrite inventory_analysis_rows in Hslow.
    apply filter_In in Hslow as [Hin' Hs].
    apply in_map_iff in Hin' as (i' & E & _). injection E as Ei Ed.
    subst i'. rewrite Hlatest, Eb, Z.sub_diag in Ed. subst d.
    simpl in Hs. discriminate.
  - unfold slow_moving. rewrite inventory_analysis_rows.
    induction df_inventory as [|i inv IH]; [reflexivity|].
    simpl.
    destruct (max_date (sales_of (Inv.Item_ID i) df_sales_merged)) as [b|];
      destruct (latest_date_in_data df_sales_merged) as [a|]; simpl.
    + rewrite orb_false_r. destruct ((a - b) / DAY >? 90); simpl; now rewrite IH.
    + now rewrite IH.
    + now rewrite IH.
    + now rewrite IH.
Qed.
